(** * dbt-adapters: relation resolution, catalog registry and schema drift

    A shallow embedding of the parts of the Snowflake adapter
    ([dbt/adapters/snowflake/impl.py]) that normalise identifiers, classify
    listed warehouse objects, absorb "not found" errors and keep the catalog
    integration registry, together with the schema drift reconciliation that
    the Athena functional tests ([test_on_schema_change.py]) exercise.

    Python strings are modelled as [string], one [ascii] per character, so
    [str.upper] and [str.lower] fold the ASCII letters only.  Python values
    that reach the adapter untyped (cells of an agate row) are [PyVal].
    Python exceptions are an error result, [Raise]. *)

From Stdlib Require Import String Ascii List Bool Arith ZArith Lia DecimalString.
From stdpp Require Import base gmap strings list.

Open Scope string_scope.

(* ===================================================================== *)
(** ** Python strings *)
(* ===================================================================== *)

Module Py.

Definition is_ascii_lower (c : ascii) : bool :=
  let n := nat_of_ascii c in (97 <=? n)%nat && (n <=? 122)%nat.

Definition is_ascii_upper (c : ascii) : bool :=
  let n := nat_of_ascii c in (65 <=? n)%nat && (n <=? 90)%nat.

Definition upper_char (c : ascii) : ascii :=
  if is_ascii_lower c then ascii_of_nat (nat_of_ascii c - 32) else c.

Definition lower_char (c : ascii) : ascii :=
  if is_ascii_upper c then ascii_of_nat (nat_of_ascii c + 32) else c.

(** [s.upper()] *)
Fixpoint upper (s : string) : string :=
  match s with
  | EmptyString => EmptyString
  | String c r => String (upper_char c) (upper r)
  end.

(** [s.lower()] *)
Fixpoint lower (s : string) : string :=
  match s with
  | EmptyString => EmptyString
  | String c r => String (lower_char c) (lower r)
  end.

(** [s.startswith(p)] *)
Fixpoint startswith (s p : string) {struct p} : bool :=
  match p with
  | EmptyString => true
  | String a p' =>
      match s with
      | EmptyString => false
      | String b s' => Ascii.eqb b a && startswith s' p'
      end
  end.

(** [s.endswith(p)] *)
Fixpoint endswith (s p : string) : bool :=
  String.eqb s p ||
  match s with
  | EmptyString => false
  | String _ r => endswith r p
  end.

(** [c in chars], for a single character [c] *)
Fixpoint char_in (c : ascii) (chars : string) : bool :=
  match chars with
  | EmptyString => false
  | String d r => Ascii.eqb c d || char_in c r
  end.

(** [s.lstrip(chars)] *)
Fixpoint lstrip (s chars : string) : string :=
  match s with
  | EmptyString => EmptyString
  | String c r => if char_in c chars then lstrip r chars else s
  end.

(** [s.rstrip(chars)] *)
Fixpoint rstrip (s chars : string) : string :=
  match s with
  | EmptyString => EmptyString
  | String c r =>
      match rstrip r chars with
      | EmptyString => if char_in c chars then EmptyString else String c EmptyString
      | r' => String c r'
      end
  end.

(** [s.strip(chars)]: every leading and every trailing character that
    occurs in [chars] is removed. *)
Definition strip (s chars : string) : string := rstrip (lstrip s chars) chars.

(** [needle in hay], substring test *)
Fixpoint contains (hay needle : string) : bool :=
  startswith hay needle ||
  match hay with
  | EmptyString => false
  | String _ r => contains r needle
  end.

(** [s * n] *)
Fixpoint repeat (s : string) (n : nat) : string :=
  match n with
  | O => EmptyString
  | S k => s +:+ repeat s k
  end.

(** Truth value of a string: the empty string is falsy. *)
Definition truthy (s : string) : bool :=
  match s with
  | EmptyString => false
  | String _ _ => true
  end.

End Py.

(* ===================================================================== *)
(** ** Python values and exceptions *)
(* ===================================================================== *)

(** A cell of an agate row, or any other untyped Python value the adapter
    compares with string literals. *)
Inductive PyVal : Type :=
| VNone
| VBool (b : bool)
| VNum (z : Z)
| VStr (s : string).

(** [v == "lit"]: only a string equals a string literal. *)
Definition py_eq_str (v : PyVal) (lit : string) : bool :=
  match v with
  | VStr s => String.eqb s lit
  | _ => false
  end.

(** [v in ("a", "b", ...)] for a tuple of string literals. *)
Definition py_in_strs (v : PyVal) (lits : list string) : bool :=
  existsb (py_eq_str v) lits.

Inductive ExcClass : Type :=
| DbtDatabaseError
| DbtRuntimeError
| DbtCatalogIntegrationNotFoundError
| SchemaDriftError
| AttributeError
| KeyError
| ValueError.

(** An exception object: its class and [str(exc)]. *)
Record Exception : Type := mkExc { exc_class : ExcClass; exc_str : string }.

Inductive result (A : Type) : Type :=
| Return (a : A)
| Raise (e : Exception).
Arguments Return {A} a.
Arguments Raise {A} e.

Definition is_DbtDatabaseError (e : Exception) : bool :=
  match exc_class e with
  | DbtDatabaseError => true
  | _ => false
  end.

(* ===================================================================== *)
(** ** Identifier normalisation: [_make_match_kwargs] *)
(* ===================================================================== *)

Definition dquote : ascii := "034"%char.

(** Modelled from the spec: the engine's quote character,
    [SnowflakeRelation.quote_character]; the relation class is not among
    the sources, and Snowflake quotes identifiers with the double quote. *)
Definition quote_character : string := String dquote EmptyString.

(** [self.config.quoting]: the three per-part flags. *)
Record Quoting : Type := mkQuoting {
  quoting_database : bool;
  quoting_schema : bool;
  quoting_identifier : bool
}.

Definition _is_quoted (identifier : option string) : bool :=
  match identifier with
  | None => false
  | Some s => Py.startswith s quote_character && Py.endswith s quote_character
  end.

Definition _strip_quotes (identifier : string) : string :=
  Py.strip identifier quote_character.

(** [dbt_common.utils.filter_null_values]: the entries whose value is not
    [None], in the order of the dict literal. *)
Fixpoint filter_null_values (d : list (string * option string)) : list (string * string) :=
  match d with
  | [] => []
  | (k, Some v) :: r => (k, v) :: filter_null_values r
  | (_, None) :: r => filter_null_values r
  end.

(** [d.get(k)] on a dict kept as an association list. *)
Fixpoint dict_get {V : Type} (d : list (string * V)) (k : string) : option V :=
  match d with
  | [] => None
  | (k', v) :: r => if String.eqb k' k then Some v else dict_get r k
  end.

Definition _make_match_kwargs (quoting : Quoting)
    (database schema identifier : option string) : list (string * string) :=
  let identifier :=
    if _is_quoted identifier then _strip_quotes <$> identifier
    else match identifier with
         | Some s => if negb (quoting_identifier quoting) then Some (Py.upper s) else Some s
         | None => None
         end in
  let schema :=
    if _is_quoted schema then _strip_quotes <$> schema
    else match schema with
         | Some s => if negb (quoting_schema quoting) then Some (Py.upper s) else Some s
         | None => None
         end in
  let database :=
    if _is_quoted database then _strip_quotes <$> database
    else match database with
         | Some s => if negb (quoting_database quoting) then Some (Py.upper s) else Some s
         | None => None
         end in
  filter_null_values
    [("identifier", identifier); ("schema", schema); ("database", database)].

(** What one path part becomes, read off the three branches above. *)
Definition match_part (quoted_by_policy : bool) (part : option string) : option string :=
  if _is_quoted part then _strip_quotes <$> part
  else match part with
       | Some s => if negb quoted_by_policy then Some (Py.upper s) else Some s
       | None => None
       end.

(* ===================================================================== *)
(** ** Relation classification: [_parse_list_relations_result] *)
(* ===================================================================== *)

Definition bind_result {A B : Type} (r : result A) (k : A -> result B) : result B :=
  match r with
  | Return a => k a
  | Raise e => Raise e
  end.

#[global] Instance result_ret : MRet result := fun A a => Return a.
#[global] Instance result_bind : MBind result := fun A B k r => bind_result r k.
#[global] Instance result_fmap : FMap result := fun A B f r =>
  match r with
  | Return a => Return (f a)
  | Raise e => Raise e
  end.

(** [try: body except ValueError: handler] *)
Definition except_ValueError {A : Type} (body : result A) (handler : result A) : result A :=
  match body with
  | Return a => Return a
  | Raise e =>
      match exc_class e with
      | ValueError => handler
      | _ => Raise e
      end
  end.

(** Modelled from the spec: the [SnowflakeRelationType] enumeration of
    [dbt.adapters.snowflake.relation_configs], which is not among the
    sources.  Its members are the relation kinds of the data model (Table,
    View, DynamicTable, External, CTE); each member's value is its
    lower-case name, which is what [impl.py] relies on when it compares
    [str(SnowflakeRelationType.Table).upper()] with the kind reported by the
    warehouse. *)
Inductive SnowflakeRelationType : Type :=
| Table
| View
| CTE
| External
| DynamicTable.

(** Modelled from the spec: the value of each member of the enumeration. *)
Definition relation_type_value (t : SnowflakeRelationType) : string :=
  match t with
  | Table => "table"
  | View => "view"
  | CTE => "cte"
  | External => "external"
  | DynamicTable => "dynamic_table"
  end.

Definition relation_type_members : list SnowflakeRelationType :=
  [Table; View; CTE; External; DynamicTable].

Definition relation_type_eqb (a b : SnowflakeRelationType) : bool :=
  match a, b with
  | Table, Table | View, View | CTE, CTE
  | External, External | DynamicTable, DynamicTable => true
  | _, _ => false
  end.

(** [self.Relation.get_relation_type(value)]: the enumeration called on a
    value; a value of no member is a [ValueError]. *)
Definition get_relation_type (value : string) : result SnowflakeRelationType :=
  match List.find (fun t => String.eqb (relation_type_value t) value) relation_type_members with
  | Some t => Return t
  | None =>
      Raise (mkExc ValueError ("'" +:+ value +:+ "' is not a valid SnowflakeRelationType"))
  end.

(** [v.lower()] on an untyped value: only strings have the method. *)
Definition py_lower (v : PyVal) : result string :=
  match v with
  | VStr s => Return (Py.lower s)
  | _ => Raise (mkExc AttributeError "object has no attribute 'lower'")
  end.

(** Modelled from the spec: the two table formats of
    [dbt.adapters.snowflake.constants], the storage format enumeration
    (Default, OpenTableFormat) of the relation descriptor. *)
Inductive TableFormat : Type :=
| INFO_SCHEMA_TABLE_FORMAT
| ICEBERG_TABLE_FORMAT.

Record SnowflakeRelation : Type := mkRelation {
  rel_database : PyVal;
  rel_schema : PyVal;
  rel_identifier : PyVal;
  rel_type : option SnowflakeRelationType;
  rel_table_format : TableFormat;
  rel_quote_policy : Quoting
}.

(** The try/except block at the head of [_parse_list_relations_result]. *)
Definition resolve_relation_type (relation_type : PyVal) : result SnowflakeRelationType :=
  except_ValueError
    (lowered ← py_lower relation_type; get_relation_type lowered)
    (Return External).

(** [self.Relation.create], the constructor of the relation class, which
    is not among the sources: it is given the path, the type, the table
    format and the quote policy, checks them, and returns the relation or
    raises. *)
Definition RelationCreate : Type :=
  PyVal -> PyVal -> PyVal -> SnowflakeRelationType -> TableFormat -> Quoting ->
  result SnowflakeRelation.

(** [_parse_list_relations_result]: only the resolution of the type is
    inside the try/except; the call of the constructor comes after it, so
    that what the constructor raises comes out of the function. *)
Definition _parse_list_relations_result (create : RelationCreate) (row : list PyVal)
    : result SnowflakeRelation :=
  match row with
  | [database; schema; identifier; relation_type; is_dynamic; is_iceberg] =>
      relation_type ← resolve_relation_type relation_type;
      let relation_type :=
        if relation_type_eqb relation_type Table && py_eq_str is_dynamic "Y"
        then DynamicTable else relation_type in
      let table_format :=
        if py_in_strs is_iceberg ["Y"; "YES"]
        then ICEBERG_TABLE_FORMAT else INFO_SCHEMA_TABLE_FORMAT in
      let quote_policy := mkQuoting true true true in
      create database schema identifier relation_type table_format quote_policy
  | _ => Raise (mkExc ValueError "wrong number of values to unpack")
  end.

(** The [table_type] local of [get_catalog_for_single_relation], computed
    from the first row of the object metadata; [row.get] gives [None] for a
    missing key. *)
Definition row_get (row : list (string * PyVal)) (key : string) : PyVal :=
  match dict_get row key with
  | Some v => v
  | None => VNone
  end.

Definition get_catalog_for_single_relation_table_type (row : list (string * PyVal)) : PyVal :=
  let is_dynamic := py_in_strs (row_get row "is_dynamic") ["Y"; "YES"] in
  let kind := row_get row "kind" in
  if is_dynamic && py_eq_str kind (Py.upper (relation_type_value Table))
  then VStr (Py.upper (relation_type_value DynamicTable))
  else kind.

(* ===================================================================== *)
(** ** Relation listing: absorbing "not found" *)
(* ===================================================================== *)

(** The macros that the adapter runs through the collaborator, by the
    constants that name them. *)
Inductive MacroName : Type :=
| LIST_SCHEMAS_MACRO_NAME
| LIST_RELATIONS_MACRO_NAME
| SHOW_OBJECT_METADATA_MACRO_NAME.

(** An agate table: its column names and its rows of cells. *)
Record AgateTable : Type := mkTable {
  column_names : list string;
  table_rows : list (list PyVal)
}.

(** The metadata-fetch collaborator, [self.execute_macro]. *)
Definition MacroExecutor : Type := MacroName -> SnowflakeRelation -> result AgateTable.

Definition table_rename (column_names' : list string) (t : AgateTable) : AgateTable :=
  mkTable column_names' (table_rows t).

Fixpoint index_of (names : list string) (key : string) : option nat :=
  match names with
  | [] => None
  | n :: r => if String.eqb n key then Some O else S <$> index_of r key
  end.

Fixpoint mapM_result {A B : Type} (f : A -> result B) (l : list A) : result (list B) :=
  match l with
  | [] => Return []
  | a :: r => b ← f a; bs ← mapM_result f r; Return (b :: bs)
  end.

(** [table.select(keys)]: the rows cut down to the named columns; a name
    that is no column is an error. *)
Definition table_select (t : AgateTable) (keys : list string) : result (list (list PyVal)) :=
  indexes ← mapM_result
      (fun k => match index_of (column_names t) k with
                | Some i => Return i
                | None => Raise (mkExc ValueError "tuple.index(x): x not in tuple")
                end) keys;
  Return (List.map (fun row => List.map (fun i => nth i row VNone) indexes) (table_rows t)).

Definition list_relations_without_caching (create : RelationCreate)
    (execute_macro : MacroExecutor) (schema_relation : SnowflakeRelation)
    : result (list SnowflakeRelation) :=
  match execute_macro LIST_RELATIONS_MACRO_NAME schema_relation with
  | Raise exc =>
      if is_DbtDatabaseError exc then
        if Py.contains (exc_str exc) "002043 (02000)" then Return [] else Raise exc
      else Raise exc
  | Return schema_objects =>
      let columns :=
        ["database_name"; "schema_name"; "name"; "kind"; "is_dynamic"; "is_iceberg"] in
      let schema_objects :=
        table_rename (List.map Py.lower (column_names schema_objects)) schema_objects in
      selected ← table_select schema_objects columns;
      mapM_result (_parse_list_relations_result create) selected
  end.

(** [get_columns_in_relation]: the base adapter's listing of a relation's
    columns is the collaborator here. *)
Definition get_columns_in_relation {Col : Type}
    (super_get_columns_in_relation : SnowflakeRelation -> result (list Col))
    (relation : SnowflakeRelation) : result (list Col) :=
  match super_get_columns_in_relation relation with
  | Return cols => Return cols
  | Raise exc =>
      if is_DbtDatabaseError exc then
        if Py.contains (exc_str exc) "does not exist or not authorized" then Return []
        else Raise exc
      else Raise exc
  end.

(* ===================================================================== *)
(** ** Catalog integration registry *)
(* ===================================================================== *)

(** Modelled from the spec: the catalog integration descriptor
    ([CatalogIntegrationConfig] of [dbt.adapters.catalogs], not among the
    sources) with the name, the kind of backend and the default storage
    format of the data model. *)
Record CatalogIntegrationConfig : Type := mkConfig {
  cfg_name : string;
  cfg_catalog_type : string;
  cfg_table_format : option string
}.

(** Modelled from the spec: a registered catalog integration
    ([CatalogIntegration] of [dbt.adapters.catalogs]), built from a
    descriptor and carrying its name, backend kind and default storage
    format. *)
Record CatalogIntegration : Type := mkIntegration {
  ci_name : string;
  ci_catalog_type : string;
  ci_table_format : option string
}.

(** References to descriptor objects. *)
Abbreviation ref := positive.

(** The adapter instance together with the descriptor objects that its
    callers hold: [objects] is the store of descriptors by reference (two
    equal references are the same object), [catalog_integrations] the
    registry by name, [registry_reads] the names the registry was asked
    for, oldest first. *)
Record Adapter : Type := mkAdapter {
  objects : gmap positive CatalogIntegrationConfig;
  catalog_integrations : gmap string CatalogIntegration;
  registry_reads : list string
}.

(** A method of the adapter: it returns or raises, and leaves a state. *)
Definition M (A : Type) : Type := Adapter -> result A * Adapter.

#[global] Instance M_ret : MRet M := fun A a st => (Return a, st).
#[global] Instance M_bind : MBind M := fun A B k m st =>
  match m st with
  | (Return a, st') => k a st'
  | (Raise e, st') => (Raise e, st')
  end.

Definition lift_result {A : Type} (r : result A) : M A := fun st => (r, st).

(** Reading a reference that names no object cannot happen in Python; the
    model stops with an [AttributeError] there. *)
Definition dangling : Exception := mkExc AttributeError "dangling reference".

(** [copy.deepcopy(obj)]: a new object with the same contents. *)
Definition deepcopy (obj : ref) : M ref := fun st =>
  match objects st !! obj with
  | Some o =>
      let fresh_ref := fresh (dom (objects st)) in
      (Return fresh_ref,
       mkAdapter (<[fresh_ref := o]> (objects st)) (catalog_integrations st) (registry_reads st))
  | None => (Raise dangling, st)
  end.

(** [obj.name] *)
Definition getattr_name (obj : ref) : M string := fun st =>
  match objects st !! obj with
  | Some o => (Return (cfg_name o), st)
  | None => (Raise dangling, st)
  end.

(** [obj.name = value] *)
Definition setattr_name (obj : ref) (value : string) : M unit := fun st =>
  match objects st !! obj with
  | Some o =>
      (Return tt,
       mkAdapter (<[obj := mkConfig value (cfg_catalog_type o) (cfg_table_format o)]> (objects st))
                 (catalog_integrations st) (registry_reads st))
  | None => (Raise dangling, st)
  end.

(** Modelled from the spec: [register(integration)] of the registry, the
    base adapter's [add_catalog_integration], which is not among the
    sources.  It builds the integration from the descriptor, files it under
    the descriptor's name and returns it. *)
Definition super_add_catalog_integration (catalog_integration : ref) : M CatalogIntegration :=
  fun st =>
  match objects st !! catalog_integration with
  | Some o =>
      let integration := mkIntegration (cfg_name o) (cfg_catalog_type o) (cfg_table_format o) in
      (Return integration,
       mkAdapter (objects st) (<[cfg_name o := integration]> (catalog_integrations st))
                 (registry_reads st))
  | None => (Raise dangling, st)
  end.

(** Modelled from the spec: [lookup(name) -> integration] of the registry,
    the base adapter's [get_catalog_integration], which is not among the
    sources; it fails with a not-found error if the name is absent. *)
Definition super_get_catalog_integration (name : string) : M CatalogIntegration :=
  fun st =>
  let st' := mkAdapter (objects st) (catalog_integrations st) (registry_reads st ++ [name])%list in
  match catalog_integrations st !! name with
  | Some integration => (Return integration, st')
  | None =>
      (Raise (mkExc DbtCatalogIntegrationNotFoundError
                ("Catalog integration not found: " +:+ name)), st')
  end.

Definition add_catalog_integration (catalog_integration : ref) : M CatalogIntegration :=
  catalog_integration ← deepcopy catalog_integration;
  name ← getattr_name catalog_integration;
  _ ← setattr_name catalog_integration (Py.upper name);
  super_add_catalog_integration catalog_integration.

Definition get_catalog_integration (name : string) : M CatalogIntegration :=
  super_get_catalog_integration (Py.upper name).

(* ===================================================================== *)
(** ** Catalog-aware relation builder *)
(* ===================================================================== *)

Section Builder.

(** [RelationConfig], the model configuration, and [CatalogRelation], what
    an integration builds from it. *)
Variables RelationConfig CatalogRelation : Type.

(** [parse_model.catalog_name], which is not among the sources: the
    catalog name that the model configuration declares, [None] when it
    declares none. *)
Variable catalog_name : RelationConfig -> option string.

(** [CatalogIntegration.build_relation], the capability of a registered
    integration. *)
Variable build_relation : CatalogIntegration -> RelationConfig -> result CatalogRelation.

(** [if catalog := parse_model.catalog_name(model)]: [None] and the empty
    string are falsy. *)
Definition build_catalog_relation (model : RelationConfig) : M (option CatalogRelation) :=
  match catalog_name model with
  | Some catalog =>
      if Py.truthy catalog then
        catalog_integration ← get_catalog_integration catalog;
        relation ← lift_result (build_relation catalog_integration model);
        mret (Some relation)
      else mret None
  | None => mret None
  end.

End Builder.

(* ===================================================================== *)
(** ** The catalog name of a model *)
(* ===================================================================== *)

Module parse_model.

Section CatalogName.

Variable RelationConfig : Type.

(** The catalog name that the model configuration declares, [None] when it
    declares none. *)
Variable declared_catalog : RelationConfig -> option string.

(** The name of the default catalog that stands in for a configuration
    that declares none, [None] for a model that has no such fallback. *)
Variable default_catalog : RelationConfig -> option string.

(** [parse_model.catalog_name] is not among the sources.  It is modelled
    from the docstring of [build_catalog_relation] (impl.py:488-490), its
    only caller: the catalog of the configuration, and a default catalog
    "if none is provided in the configuration".  A declared name that is
    empty counts as none. *)
Definition catalog_name (model : RelationConfig) : option string :=
  match declared_catalog model with
  | Some catalog => if Py.truthy catalog then Some catalog else default_catalog model
  | None => default_catalog model
  end.

End CatalogName.

End parse_model.

(* ===================================================================== *)
(** ** Schema drift reconciliation *)
(* ===================================================================== *)

(** The reconciliation itself lives in the [on_schema_change] macros, which
    are not among the sources; the functional tests of
    [test_on_schema_change.py] are.  The engine below follows section 4.6
    of the specification, and the tests give its scenarios and its error
    phrase. *)

(** Modelled from the spec: a column, {name, data_type, ordinal position}. *)
Record Column : Type := mkColumn {
  col_name : string;
  col_data_type : string;
  col_ordinal : Z
}.

(** Modelled from the spec: the policy enumeration, the [on_schema_change]
    values [ignore], [append_new_columns], [sync_all_columns], [fail]. *)
Inductive SchemaChangePolicy : Type :=
| Ignore
| AppendNewColumns
| SyncAllColumns
| Fail.

(** Modelled from the spec: the transient column diff. *)
Record ColumnDiff : Type := mkDiff {
  added : list Column;
  removed : list Column;
  changed : list (Column * Column)
}.

(** Modelled from the spec: a structural operation names a column and an
    add or drop intent. *)
Inductive Intent : Type := AddColumn | DropColumn.

(** Modelled from the spec: the operation handed to the execution
    collaborator. *)
Record StructuralOp : Type := mkOp { op_intent : Intent; op_column : Column }.

(** The phrase that [test__fail] looks for in the log. *)
Definition out_of_sync_phrase : string :=
  "The source and target schemas on this incremental model are out of sync!".

Fixpoint all_chars (p : ascii -> bool) (s : string) : bool :=
  match s with
  | EmptyString => true
  | String c r => p c && all_chars p r
  end.

(** Letters, digits and the underscore need no quoting. *)
Definition is_plain_char (c : ascii) : bool :=
  Py.is_ascii_lower c || Py.is_ascii_upper c ||
  (let n := nat_of_ascii c in (48 <=? n)%nat && (n <=? 57)%nat) ||
  Ascii.eqb c "_"%char.

Section SchemaDiffEngine.

(** The engine's name normalisation for column names, its reserved words
    and its identifier quoting are specific to the engine. *)
Variable normalize : string -> string.
Variable is_reserved : string -> bool.
Variable quote : string -> string.

(** Modelled from the spec: step 1, the mapping from normalised column
    name to column. *)
Definition column_map (columns : list Column) : gmap string Column :=
  list_to_map (List.map (fun c => (normalize (col_name c), c)) columns).

(** Modelled from the spec: a column whose normalised name is absent from
    a mapping. *)
Definition absent_from (m : gmap string Column) (c : Column) : bool :=
  match m !! normalize (col_name c) with
  | Some _ => false
  | None => true
  end.

(** Modelled from the spec: steps 2 to 4, [added] are the incoming columns
    whose normalised name is absent from existing, [removed] the existing
    columns whose normalised name is absent from incoming; changes of
    type are not detected. *)
Definition column_diff (existing incoming : list Column) : ColumnDiff :=
  let existing_by_name := column_map existing in
  let incoming_by_name := column_map incoming in
  mkDiff (List.filter (absent_from existing_by_name) incoming)
         (List.filter (absent_from incoming_by_name) existing)
         [].

Definition col_names (columns : list Column) : list string :=
  List.map col_name columns.

(** Modelled from the spec: the drift error names the divergence and the
    columns that drifted. *)
Definition drift_error (d : ColumnDiff) : Exception :=
  mkExc SchemaDriftError
    (out_of_sync_phrase +:+ " Added: " +:+ String.concat ", " (col_names (added d))
     +:+ "; removed: " +:+ String.concat ", " (col_names (removed d))).

Definition is_empty {A : Type} (l : list A) : bool :=
  match l with
  | [] => true
  | _ :: _ => false
  end.

(** Modelled from the spec: step 5, the action each policy selects. *)
Definition reconcile (existing incoming : list Column) (policy : SchemaChangePolicy)
    : ColumnDiff * result (list StructuralOp) :=
  let d := column_diff existing incoming in
  (d,
   match policy with
   | Ignore => Return []
   | AppendNewColumns => Return (List.map (mkOp AddColumn) (added d))
   | SyncAllColumns =>
       Return (List.map (mkOp AddColumn) (added d) ++ List.map (mkOp DropColumn) (removed d))%list
   | Fail =>
       if is_empty (added d) && is_empty (removed d) then Return []
       else Raise (drift_error d)
   end).

(** Modelled from the spec: step 6, the identifier that the statement of
    an operation carries; a reserved word or a name with a character
    other than a letter, a digit or an underscore is quoted. *)
Definition requires_quoting (name : string) : bool :=
  is_reserved name || negb (all_chars is_plain_char name).

(** Modelled from the spec: the identifier in the statement of an
    operation. *)
Definition emitted_identifier (op : StructuralOp) : string :=
  let name := col_name (op_column op) in
  if requires_quoting name then quote name else name.

(** Modelled from the spec: the execution collaborator takes one
    operation at a time; an addition appends the column, a drop removes
    the column of that normalised name. *)
Definition apply_operation (columns : list Column) (op : StructuralOp) : list Column :=
  match op_intent op with
  | AddColumn => (columns ++ [op_column op])%list
  | DropColumn =>
      List.filter
        (fun c => negb (String.eqb (normalize (col_name c)) (normalize (col_name (op_column op)))))
        columns
  end.

(** Modelled from the spec: the operations applied in order. *)
Definition apply_operations (ops : list StructuralOp) (columns : list Column) : list Column :=
  fold_left apply_operation ops columns.

(** Modelled from the spec: one incremental run, from the stored columns
    to the stored columns after it and the error reported, if any. *)
Definition incremental_run (existing incoming : list Column) (policy : SchemaChangePolicy)
    : list Column * option Exception :=
  match snd (reconcile existing incoming policy) with
  | Return ops => (apply_operations ops existing, None)
  | Raise e => (existing, Some e)
  end.

(** Modelled from the spec: the column set of a relation, keyed by
    normalised name. *)
Definition normalized_names (columns : list Column) : list string :=
  List.map (fun c => normalize (col_name c)) columns.

End SchemaDiffEngine.

(** The columns of the models of [test_on_schema_change.py]. *)
Definition columns_of (names : list string) : list Column :=
  imap (fun i n => mkColumn n "varchar" (Z.of_nat (S i))) names.

(** The models of [test_on_schema_change.py]: [id] and [name] on the first
    run and [updated_at] more on an incremental run; [id] and [select], and
    [field-with-dash] more, for the model with special characters. *)
Definition base_columns : list Column := columns_of ["id"; "name"].
Definition incremental_columns : list Column := columns_of ["id"; "name"; "updated_at"].
Definition special_base_columns : list Column := columns_of ["id"; "select"].
Definition special_incremental_columns : list Column :=
  columns_of ["id"; "select"; "field-with-dash"].

(** An engine for the scenarios: a few reserved words, identifiers quoted
    with the quote character. *)
Definition example_is_reserved (name : string) : bool :=
  existsb (String.eqb (Py.lower name)) ["select"; "from"; "where"; "table"].

Definition example_quote (name : string) : string :=
  quote_character +:+ name +:+ quote_character.

(* ===================================================================== *)
(** ** Python values, continued *)
(* ===================================================================== *)

(** Truth value of a value: [None], [False], zero and the empty string are
    falsy. *)
Definition py_truthy (v : PyVal) : bool :=
  match v with
  | VNone => false
  | VBool b => b
  | VNum z => negb (Z.eqb z 0)
  | VStr s => Py.truthy s
  end.

(** [a == b]; a boolean equals the number 0 or 1 it stands for. *)
Definition py_eq (a b : PyVal) : bool :=
  match a, b with
  | VNone, VNone => true
  | VBool x, VBool y => Bool.eqb x y
  | VNum x, VNum y => Z.eqb x y
  | VBool x, VNum y => Z.eqb (if x then 1 else 0) y
  | VNum x, VBool y => Z.eqb x (if y then 1 else 0)
  | VStr x, VStr y => String.eqb x y
  | _, _ => false
  end.

(** [str(v)], which is also what [format] and an f-string put in place of
    a value. *)
Definition py_str (v : PyVal) : string :=
  match v with
  | VNone => "None"
  | VBool true => "True"
  | VBool false => "False"
  | VNum z => NilZero.string_of_int (Z.to_int z)
  | VStr s => s
  end.

(** [type(v)] as an f-string shows it. *)
Definition py_type_repr (v : PyVal) : string :=
  match v with
  | VNone => "<class 'NoneType'>"
  | VBool _ => "<class 'bool'>"
  | VNum _ => "<class 'int'>"
  | VStr _ => "<class 'str'>"
  end.

Definition newline : string := String "010"%char EmptyString.

(** [s.split(sep)[0]]: what comes before the first occurrence of [sep], the
    whole string when there is none. *)
Fixpoint split_first (s sep : string) : string :=
  if Py.startswith s sep then EmptyString
  else match s with
       | EmptyString => EmptyString
       | String c r => String c (split_first r sep)
       end.

(** How a call of the adapter ends when the adapter itself may construct
    the error: an exception of a collaborator that is passed on as it
    came, or a new error of the adapter with the message it is given. *)
Inductive Raised : Type :=
| Propagated (e : Exception)
| NewDbtRuntimeError (msg : string)
| NewCompilationError (msg : string).

Inductive outcome (A : Type) : Type :=
| Done (a : A)
| Failed (r : Raised).
Arguments Done {A} a.
Arguments Failed {A} r.

Definition outcome_of_result {A : Type} (r : result A) : outcome A :=
  match r with
  | Return a => Done a
  | Raise e => Failed (Propagated e)
  end.

(** [row[key]] on an agate row with the given column names. *)
Definition row_getitem (names : list string) (row : list PyVal) (key : string) : result PyVal :=
  match index_of names key with
  | Some i => Return (nth i row VNone)
  | None => Raise (mkExc KeyError ("'" +:+ key +:+ "'"))
  end.

(** An agate row as the mapping from column name to cell. *)
Definition row_dict (names : list string) (row : list PyVal) : list (string * PyVal) :=
  combine names row.

(* ===================================================================== *)
(** ** Schemas: [list_schemas] *)
(* ===================================================================== *)

(** The collaborator for macros that take a database name. *)
Definition DatabaseMacroExecutor : Type := MacroName -> string -> result AgateTable.

Definition list_schemas (execute_macro : DatabaseMacroExecutor) (database : string)
    : outcome (list PyVal) :=
  match execute_macro LIST_SCHEMAS_MACRO_NAME database with
  | Raise exc =>
      if is_DbtDatabaseError exc then
        let msg :=
          "Database error while listing schemas in database "
          +:+ quote_character +:+ database +:+ quote_character +:+ newline +:+ exc_str exc in
        Failed (NewDbtRuntimeError msg)
      else Failed (Propagated exc)
  | Return results =>
      outcome_of_result
        (mapM_result (fun row => row_getitem (column_names results) row "name")
           (table_rows results))
  end.

(* ===================================================================== *)
(** ** Warehouse hooks: [pre_model_hook], [post_model_hook] *)
(* ===================================================================== *)

(** A method that runs statements on the connection: it starts from the
    statements run so far (oldest first) and leaves those run after it. *)
Definition Session (A : Type) : Type := list string -> outcome A * list string.

#[global] Instance Session_ret : MRet Session := fun A a log => (Done a, log).
#[global] Instance Session_bind : MBind Session := fun A B k m log =>
  match m log with
  | (Done a, log') => k a log'
  | (Failed r, log') => (Failed r, log')
  end.

Definition session_fail {A : Type} (r : Raised) : Session A := fun log => (Failed r, log).

Section Warehouse.

(** What the connection answers to a statement: the fetched table, or the
    exception of the driver. *)
Variable answer : string -> result AgateTable.

(** [self.execute(sql, ...)], the fetched table. *)
Definition execute (sql : string) : Session AgateTable := fun log =>
  (outcome_of_result (answer sql), (log ++ [sql])%list).

Definition _get_warehouse : Session string :=
  table ← execute "select current_warehouse() as warehouse";
  match table_rows table with
  | [] => session_fail (NewDbtRuntimeError "Could not get current warehouse: no results")
  | [] :: _ => session_fail (NewDbtRuntimeError "Could not get current warehouse: no results")
  | (cell :: _) :: _ => mret (py_str cell)
  end.

Definition _use_warehouse (warehouse : PyVal) : Session unit :=
  _ ← execute ("use warehouse " +:+ py_str warehouse);
  mret tt.

(** [config.get(key, default)] *)
Definition config_get (config : list (string * PyVal)) (key : string) (default : PyVal) : PyVal :=
  match dict_get config key with
  | Some v => v
  | None => default
  end.

(** [default_warehouse] is [self.config.credentials.warehouse]. *)
Definition pre_model_hook (default_warehouse : PyVal) (config : list (string * PyVal))
    : Session (option string) :=
  let warehouse := config_get config "snowflake_warehouse" default_warehouse in
  if py_eq warehouse default_warehouse || py_eq warehouse VNone then mret None
  else
    previous ← _get_warehouse;
    _ ← _use_warehouse warehouse;
    mret (Some previous).

Definition post_model_hook (config : list (string * PyVal)) (context : option string)
    : Session unit :=
  match context with
  | Some previous => _use_warehouse (VStr previous)
  | None => mret tt
  end.

End Warehouse.

(* ===================================================================== *)
(** ** Seeds and grants *)
(* ===================================================================== *)

(** [quote] is the adapter's [self.quote]. *)
Definition quote_seed_column (quote : string -> string) (column : string) (quote_config : PyVal)
    : outcome string :=
  match
    match quote_config with
    | VBool b => Done b
    | VNone => Done false
    | _ =>
        Failed (NewCompilationError
                  ("The seed configuration value of " +:+ quote_character +:+ "quote_columns"
                   +:+ quote_character +:+ " has an invalid type " +:+ py_type_repr quote_config))
    end
  with
  | Done quote_columns => Done (if quote_columns then quote column else column)
  | Failed r => Failed r
  end.

(** A row of the grants table; a cell is a string or [None]. *)
Record GrantRow : Type := mkGrant {
  grantee_name : option string;
  granted_to : option string;
  privilege : option string
}.

(** The condition under which a row of the grants table is kept. *)
Definition grant_is_kept (row : GrantRow) : bool :=
  negb (bool_decide (privilege row = Some "OWNERSHIP"))
  && negb (bool_decide (granted_to row = Some "SHARE")
           || bool_decide (granted_to row = Some "DATABASE_ROLE")).

Definition standardize_grants_dict (grants_table : list GrantRow)
    : gmap (option string) (list (option string)) :=
  fold_left
    (fun grants_dict row =>
       if grant_is_kept row then
         match grants_dict !! privilege row with
         | Some grantees =>
             <[privilege row := (grantees ++ [grantee_name row])%list]> grants_dict
         | None => <[privilege row := [grantee_name row]]> grants_dict
         end
       else grants_dict)
    grants_table ∅.

(* ===================================================================== *)
(** ** Python models: the packages of [submit_python_job] *)
(* ===================================================================== *)

(** The [packages] list of [submit_python_job] after the default packages
    have been added, before it is joined into the statement. *)
Definition submit_python_job_packages (packages : list string) : list string :=
  let default_packages := ["snowflake-snowpark-python"] in
  let package_names := List.map (fun package => split_first package "==") packages in
  fold_left
    (fun packages default_package =>
       if existsb (String.eqb default_package) package_names then packages
       else (packages ++ [default_package])%list)
    default_packages packages.

(* ===================================================================== *)
(** ** Python models: [submit_python_job] *)
(* ===================================================================== *)

(** The entries of [parsed_model["config"]] that the method reads; [None]
    is a key that is not set. *)
Record PythonModelConfig : Type := mkPythonModelConfig {
  pc_python_version : option string;
  pc_packages : option (list string);
  pc_imports : option (list string);
  pc_external_access_integrations : option (list string);
  pc_secrets : option (list (string * string));
  pc_use_anonymous_sproc : option bool
}.

Record ParsedModel : Type := mkParsedModel {
  pm_schema : string;
  pm_database : string;
  pm_alias : string;
  pm_config : PythonModelConfig
}.

Definition twelve_spaces : string := "            ".

Section PythonJob.

(** The response of the connection to a statement. *)
Variable Response : Type.
Variable run : string -> result Response.

(** [constants.DEFAULT_PYTHON_VERSION_FOR_PYTHON_MODELS] and
    [self.config.args.SEND_ANONYMOUS_USAGE_STATS]. *)
Variable DEFAULT_PYTHON_VERSION_FOR_PYTHON_MODELS : string.
Variable SEND_ANONYMOUS_USAGE_STATS : bool.

(** [self.execute(sql, auto_begin=False, fetch=False)], the response. *)
Definition execute_response (sql : string) : Session Response := fun log =>
  (outcome_of_result (run sql), (log ++ [sql])%list).

(** The [use_anonymous_sproc] local. *)
Definition job_use_anonymous_sproc (parsed_model : ParsedModel) : bool :=
  default true (pc_use_anonymous_sproc (pm_config parsed_model)).

(** The [proc_name] local. *)
Definition job_proc_name (parsed_model : ParsedModel) : string :=
  if job_use_anonymous_sproc parsed_model then pm_alias parsed_model +:+ "__dbt_sp"
  else pm_database parsed_model +:+ "." +:+ pm_schema parsed_model +:+ "."
       +:+ pm_alias parsed_model +:+ "__dbt_sp".

(** The [common_procedure_code] local. *)
Definition job_common_procedure_code (parsed_model : ParsedModel) (compiled_code : string)
    : string :=
  let config := pm_config parsed_model in
  let python_version :=
    default DEFAULT_PYTHON_VERSION_FOR_PYTHON_MODELS (pc_python_version config) in
  let packages := default [] (pc_packages config) in
  let imports := default [] (pc_imports config) in
  let external_access_integrations := default [] (pc_external_access_integrations config) in
  let secrets := default [] (pc_secrets config) in
  let packages := submit_python_job_packages packages in
  let packages := String.concat "', '" packages in
  let imports := String.concat "', '" imports in
  let external_access_integrations := String.concat ", " external_access_integrations in
  let secrets :=
    String.concat ", " (List.map (fun kv => "'" +:+ kv.1 +:+ "' = " +:+ kv.2) secrets) in
  let imports :=
    if Py.truthy imports then "IMPORTS = ('" +:+ imports +:+ "')" else imports in
  let external_access_integrations :=
    if Py.truthy external_access_integrations
    then "EXTERNAL_ACCESS_INTEGRATIONS = (" +:+ external_access_integrations +:+ ")"
    else external_access_integrations in
  let secrets := if Py.truthy secrets then "SECRETS = (" +:+ secrets +:+ ")" else secrets in
  let snowpark_telemetry_snippet :=
    if SEND_ANONYMOUS_USAGE_STATS then
      newline +:+ "import sys" +:+ newline
      +:+ "sys._xoptions['snowflake_partner_attribution'].append(" +:+ quote_character
      +:+ "dbtLabs_dbtPython" +:+ quote_character +:+ ")"
    else "" in
  newline +:+ "RETURNS STRING" +:+ newline
  +:+ "LANGUAGE PYTHON" +:+ newline
  +:+ "RUNTIME_VERSION = '" +:+ python_version +:+ "'" +:+ newline
  +:+ "PACKAGES = ('" +:+ packages +:+ "')" +:+ newline
  +:+ external_access_integrations +:+ newline
  +:+ secrets +:+ newline
  +:+ imports +:+ newline
  +:+ "HANDLER = 'main'" +:+ newline
  +:+ "EXECUTE AS CALLER" +:+ newline
  +:+ "AS" +:+ newline
  +:+ "$$" +:+ newline
  +:+ snowpark_telemetry_snippet +:+ newline
  +:+ newline
  +:+ compiled_code +:+ newline
  +:+ "$$".

(** The [python_stored_procedure] local. *)
Definition job_python_stored_procedure (parsed_model : ParsedModel) (compiled_code : string)
    : string :=
  let proc_name := job_proc_name parsed_model in
  let common_procedure_code := job_common_procedure_code parsed_model compiled_code in
  if job_use_anonymous_sproc parsed_model then
    newline +:+ "WITH " +:+ proc_name +:+ " AS PROCEDURE ()" +:+ newline
    +:+ common_procedure_code +:+ newline
    +:+ "CALL " +:+ proc_name +:+ "();" +:+ newline
    +:+ twelve_spaces
  else
    newline +:+ "CREATE OR REPLACE PROCEDURE " +:+ proc_name +:+ " ()" +:+ newline
    +:+ common_procedure_code +:+ ";" +:+ newline
    +:+ "CALL " +:+ proc_name +:+ "();" +:+ newline
    +:+ newline
    +:+ twelve_spaces.

Definition submit_python_job (parsed_model : ParsedModel) (compiled_code : string)
    : Session Response :=
  let use_anonymous_sproc := job_use_anonymous_sproc parsed_model in
  let proc_name := job_proc_name parsed_model in
  let python_stored_procedure := job_python_stored_procedure parsed_model compiled_code in
  response ← execute_response python_stored_procedure;
  _ ← (if negb use_anonymous_sproc
       then _ ← execute_response ("drop procedure if exists " +:+ proc_name +:+ "()"); mret tt
       else mret tt);
  mret response.

End PythonJob.

(* ===================================================================== *)
(** ** Run information: [_get_adapter_specific_run_info] *)
(* ===================================================================== *)

(** The [config] argument, as far as the method looks at it. *)
Inductive RunConfig : Type :=
| FalsyConfig
| ConfigWithoutExtra
| ConfigWithExtra (_extra : list (string * PyVal)).

(** The [table_format] entry of the run information: [None], the value the
    configuration declares, or one of the two constants. *)
Inductive RunInfoTableFormat : Type :=
| RunInfoNone
| RunInfoDeclared (v : PyVal)
| RunInfoConstant (f : TableFormat).

Record RunInfo (AdapterType : Type) : Type := mkRunInfo {
  run_adapter_type : AdapterType;
  run_table_format : RunInfoTableFormat
}.
Arguments mkRunInfo {AdapterType} _ _.
Arguments run_adapter_type {AdapterType} _.
Arguments run_table_format {AdapterType} _.

(** [ADAPTER_TYPE] and [default_info_schema_name] are
    [constants.ADAPTER_TYPE] and [constants.DEFAULT_INFO_SCHEMA_CATALOG.name]. *)
Definition _get_adapter_specific_run_info {AdapterType : Type} (ADAPTER_TYPE : AdapterType)
    (default_info_schema_name : string) (config : RunConfig) : RunInfo AdapterType :=
  match config with
  | ConfigWithExtra _extra =>
      let catalog := row_get _extra "catalog" in
      let _table_format := row_get _extra "table_format" in
      if py_truthy _table_format then mkRunInfo ADAPTER_TYPE (RunInfoDeclared _table_format)
      else if negb (py_truthy catalog) then
        mkRunInfo ADAPTER_TYPE (RunInfoConstant INFO_SCHEMA_TABLE_FORMAT)
      else if py_eq_str catalog default_info_schema_name then
        mkRunInfo ADAPTER_TYPE (RunInfoConstant INFO_SCHEMA_TABLE_FORMAT)
      else mkRunInfo ADAPTER_TYPE (RunInfoConstant ICEBERG_TABLE_FORMAT)
  | _ => mkRunInfo ADAPTER_TYPE RunInfoNone
  end.

(* ===================================================================== *)
(** ** The catalog of one relation: [get_catalog_for_single_relation] *)
(* ===================================================================== *)

(** A column as the column listing gives it: its name and its type. *)
Record SnowflakeColumn : Type := mkSnowflakeColumn { sf_column : string; sf_dtype : string }.

Record TableMetadata : Type := mkTableMetadata {
  tm_type : PyVal;
  tm_schema : PyVal;
  tm_name : PyVal;
  tm_database : PyVal;
  tm_comment : PyVal;
  tm_owner : PyVal
}.

Record StatsItem : Type := mkStatsItem {
  stat_id : string;
  stat_label : string;
  stat_value : PyVal;
  stat_include : bool;
  stat_description : string
}.

Record ColumnMetadata : Type := mkColumnMetadata {
  cm_type : string;
  cm_index : nat;
  cm_name : string
}.

Record CatalogTable : Type := mkCatalogTable {
  ct_metadata : TableMetadata;
  ct_columns : gmap string ColumnMetadata;
  ct_stats : list (string * StatsItem)
}.

Definition _show_object_metadata (execute_macro : MacroExecutor) (relation : SnowflakeRelation)
    : result (option AgateTable) :=
  match execute_macro SHOW_OBJECT_METADATA_MACRO_NAME relation with
  | Return results =>
      if (List.length (table_rows results) =? 0)%nat then Return None else Return (Some results)
  | Raise exc => if is_DbtDatabaseError exc then Return None else Raise exc
  end.

(** [{key(i, c): value(i, c) for i, c in enumerate(l)}]: a later entry of
    the same key replaces an earlier one. *)
Definition dict_of_enumerate {A V : Type} (key : A -> string) (value : nat -> A -> V)
    (l : list A) : gmap string V :=
  fold_left (fun d ic => <[key ic.2 := value ic.1 ic.2]> d) (imap (fun i c => (i, c)) l) ∅.

(** [as_case_sensitive] is the method of the relation, [execute_macro] and
    [super_get_columns_in_relation] are the collaborators. *)
Definition get_catalog_for_single_relation
    (as_case_sensitive : SnowflakeRelation -> SnowflakeRelation)
    (execute_macro : MacroExecutor)
    (super_get_columns_in_relation : SnowflakeRelation -> result (list SnowflakeColumn))
    (relation : SnowflakeRelation) : result (option CatalogTable) :=
  object_metadata ← _show_object_metadata execute_macro (as_case_sensitive relation);
  match object_metadata return result (option CatalogTable) with
  | None => Return None
  | Some object_metadata =>
      match table_rows object_metadata return result (option CatalogTable) with
      | [] => Return None
      | cells :: _ =>
          let row := row_dict (column_names object_metadata) cells in
          let kind := row_get row "kind" in
          let table_type := get_catalog_for_single_relation_table_type row in
          let is_view := py_eq_str kind (Py.upper (relation_type_value View)) in
          let table_metadata :=
            mkTableMetadata table_type (row_get row "schema_name") (row_get row "name")
              (row_get row "database_name") (row_get row "comment") (row_get row "owner") in
          let stats_dict :=
            [("has_stats",
              mkStatsItem "has_stats" "Has Stats?" (VBool true) false
                "Indicates whether there are statistics for this table");
             ("row_count",
              mkStatsItem "row_count" "Row Count" (row_get row "rows") (negb is_view)
                "Number of rows in the table as reported by Snowflake");
             ("bytes",
              mkStatsItem "bytes" "Approximate Size" (row_get row "bytes") (negb is_view)
                "Size of the table as reported by Snowflake")] in
          columns ← get_columns_in_relation super_get_columns_in_relation relation;
          let catalog_columns :=
            dict_of_enumerate sf_column
              (fun i c => mkColumnMetadata (sf_dtype c) (i + 1) (sf_column c)) columns in
          Return (Some (mkCatalogTable table_metadata catalog_columns stats_dict))
      end
  end.

(* ===================================================================== *)
(** ** Construction: [__init__] *)
(* ===================================================================== *)

(** The two arguments are the references to [constants.DEFAULT_INFO_SCHEMA_CATALOG]
    and [constants.DEFAULT_BUILT_IN_CATALOG], objects of the module that
    every adapter instance shares. *)
Definition __init__ (DEFAULT_INFO_SCHEMA_CATALOG DEFAULT_BUILT_IN_CATALOG : ref) : M unit :=
  _ ← add_catalog_integration DEFAULT_INFO_SCHEMA_CATALOG;
  _ ← add_catalog_integration DEFAULT_BUILT_IN_CATALOG;
  mret tt.

(* ===================================================================== *)
(** ** Definitions used by the statements *)
(* ===================================================================== *)

(** The parts of a call of [_make_match_kwargs], each with its key in the
    result and its flag in the quoting policy. *)
Definition path_parts (quoting : Quoting) (database schema identifier : option string)
    : list (string * bool * option string) :=
  [("identifier", quoting_identifier quoting, identifier);
   ("schema", quoting_schema quoting, schema);
   ("database", quoting_database quoting, database)].

(** A quoted, mixed-case identifier. *)
Definition quoted_my_col : string := quote_character +:+ "My Col" +:+ quote_character.

(** Two constructors to run the listing with: one that accepts every path,
    and one that, like the relation class, rejects an identifier that is no
    string. *)
Definition plain_create : RelationCreate :=
  fun database schema identifier relation_type table_format quote_policy =>
    Return (mkRelation database schema identifier (Some relation_type) table_format
              quote_policy).

Definition checked_create : RelationCreate :=
  fun database schema identifier relation_type table_format quote_policy =>
    match identifier with
    | VStr _ =>
        Return (mkRelation database schema identifier (Some relation_type) table_format
                  quote_policy)
    | _ => Raise (mkExc ValueError "identifier is not a string")
    end.

(** The relation that stands for a schema: no identifier, no type. *)
Definition schema_descriptor (database schema : string) : SnowflakeRelation :=
  mkRelation (VStr database) (VStr schema) VNone None INFO_SCHEMA_TABLE_FORMAT
    (mkQuoting true true true).

(** Two database errors of the "not found" class. *)
Definition schema_not_found : Exception :=
  mkExc DbtDatabaseError
    "002043 (02000): SQL compilation error: Object does not exist, or operation cannot be performed.".

Definition relation_not_found : Exception :=
  mkExc DbtDatabaseError
    "SQL compilation error: Table 'DB.SALES.ORDERS' does not exist or not authorized.".

(** A descriptor with its name in upper case, and the integration that the
    registry builds from a descriptor. *)
Definition upper_config (cfg : CatalogIntegrationConfig) : CatalogIntegrationConfig :=
  mkConfig (Py.upper (cfg_name cfg)) (cfg_catalog_type cfg) (cfg_table_format cfg).

Definition integration_of (cfg : CatalogIntegrationConfig) : CatalogIntegration :=
  mkIntegration (cfg_name cfg) (cfg_catalog_type cfg) (cfg_table_format cfg).

(** A caller that holds one descriptor, under reference 1, and an adapter
    with nothing registered; the same adapter after that descriptor has
    been registered. *)
Definition my_catalog : CatalogIntegrationConfig :=
  mkConfig "my_Catalog" "iceberg_rest" (Some "iceberg").

Definition caller_state : Adapter :=
  mkAdapter {[ 1%positive := my_catalog ]} ∅ [].

Definition registered_state : Adapter :=
  snd (add_catalog_integration 1%positive caller_state).

(** A quoted, lower-case identifier. *)
Definition quoted_orders : string := quote_character +:+ "orders" +:+ quote_character.

(** A connection whose current warehouse is COMPUTE_WH. *)
Definition sample_answer (sql : string) : result AgateTable :=
  if String.eqb sql "select current_warehouse() as warehouse"
  then Return (mkTable ["WAREHOUSE"] [[VStr "COMPUTE_WH"]])
  else Return (mkTable [] []).

(** The grantees of the rows that [standardize_grants_dict] keeps under a
    privilege, in the order of the rows. *)
Definition grantees_with (p : option string) (rows : list GrantRow) : list (option string) :=
  List.map grantee_name
    (List.filter (fun row => grant_is_kept row && bool_decide (privilege row = p)) rows).

(** The name of the package that every Python model needs. *)
Definition snowpark : string := "snowflake-snowpark-python".

(** The metadata and the columns of a table ORDERS. *)
Definition orders_metadata : AgateTable :=
  mkTable ["name"; "kind"; "is_dynamic"; "rows"]
    [[VStr "ORDERS"; VStr "TABLE"; VStr "N"; VNum 42]].

Definition orders_columns : list SnowflakeColumn :=
  [mkSnowflakeColumn "ID" "NUMBER"; mkSnowflakeColumn "NAME" "TEXT"].

(** The two default descriptors as objects of the module, under references
    1 and 2, and an adapter with nothing registered yet. *)
Definition module_state : Adapter :=
  mkAdapter
    {[ 1%positive := mkConfig "info_schema" "INFO_SCHEMA" None;
       2%positive := mkConfig "snowflake" "BUILT_IN" (Some "iceberg") ]}
    ∅ [].

(** What the listing macro fetches for a schema with a table and a stage;
    the warehouse gives the column names in a casing of its own. *)
Definition listed_objects : AgateTable :=
  mkTable ["NAME"; "Kind"; "database_name"; "schema_name"; "is_dynamic"; "is_iceberg"; "owner"]
    [[VStr "ORDERS"; VStr "TABLE"; VStr "DB"; VStr "SALES"; VStr "N"; VStr "Y"; VStr "ADMIN"];
     [VStr "STG"; VStr "STAGE"; VStr "DB"; VStr "SALES"; VStr "N"; VStr "N"; VStr "ADMIN"]].

(** A model configuration reduced to the catalog name that it declares,
    a fallback to the info-schema catalog for every model, and an
    integration that builds the relation named after itself; the adapter
    as [__init__] leaves it, with the two default catalogs registered. *)
Definition info_schema_fallback (model : option string) : option string := Some "INFO_SCHEMA".

Definition no_fallback (model : option string) : option string := None.

Definition named_relation (integration : CatalogIntegration) (model : option string)
    : result string :=
  Return (ci_name integration).

Definition constructed_state : Adapter := snd (__init__ 1%positive 2%positive module_state).

(** A listing with a table whose name the warehouse gives as a number. *)
Definition listed_numeric_name : AgateTable :=
  mkTable ["name"; "kind"; "database_name"; "schema_name"; "is_dynamic"; "is_iceberg"]
    [[VNum 2024; VStr "TABLE"; VStr "DB"; VStr "SALES"; VStr "N"; VStr "N"]].

(* ===================================================================== *)
(** * Properties *)
(* ===================================================================== *)

(** ** Strings *)

#[local] Arguments String.append : simpl nomatch.

Lemma lstrip_cons (c : ascii) (r chars : string) :
  Py.lstrip (String c r) chars
  = if Py.char_in c chars then Py.lstrip r chars else String c r.
Proof. reflexivity. Qed.

Lemma rstrip_cons (c : ascii) (r chars : string) :
  Py.rstrip (String c r) chars
  = match Py.rstrip r chars with
    | EmptyString => if Py.char_in c chars then EmptyString else String c EmptyString
    | r' => String c r'
    end.
Proof. reflexivity. Qed.

Lemma char_in_quote (c : ascii) :
  Py.char_in c quote_character = Ascii.eqb c dquote.
Proof. simpl. apply orb_false_r. Qed.

Lemma startswith_quote_cons (c : ascii) (r : string) :
  Py.startswith (String c r) quote_character = Ascii.eqb c dquote.
Proof. simpl. apply andb_true_r. Qed.

Lemma startswith_quote_empty : Py.startswith "" quote_character = false.
Proof. reflexivity. Qed.

Lemma endswith_quote_cons (c : ascii) (r : string) :
  Py.endswith (String c r) quote_character
  = (Ascii.eqb c dquote && String.eqb r "") || Py.endswith r quote_character.
Proof. reflexivity. Qed.

Lemma append_empty_r (s : string) : s +:+ "" = s.
Proof. induction s as [| c r IH]; simpl; congruence. Qed.

Lemma append_assoc (a b c : string) : (a +:+ b) +:+ c = a +:+ (b +:+ c).
Proof. induction a as [| x r IH]; simpl; congruence. Qed.

Lemma repeat_quote_S (k : nat) :
  Py.repeat quote_character (S k) = String dquote (Py.repeat quote_character k).
Proof. reflexivity. Qed.

Lemma repeat_quote_snoc (k : nat) :
  Py.repeat quote_character k +:+ quote_character = Py.repeat quote_character (S k).
Proof.
  induction k as [| k IH]; [reflexivity |].
  rewrite repeat_quote_S. simpl String.append. rewrite IH. reflexivity.
Qed.

(** [lstrip] takes a run of quotes off the front and stops at the first
    other character. *)
Lemma lstrip_decompose (s : string) :
  exists m, s = Py.repeat quote_character m +:+ Py.lstrip s quote_character
            /\ Py.startswith (Py.lstrip s quote_character) quote_character = false.
Proof.
  induction s as [| c r (m & Hm & Hs)].
  - exists 0%nat. split; reflexivity.
  - rewrite lstrip_cons, char_in_quote.
    destruct (Ascii.eqb c dquote) eqn:Hc.
    + apply Ascii.eqb_eq in Hc. subst c. exists (S m). split; [| exact Hs].
      rewrite repeat_quote_S. simpl. congruence.
    + exists 0%nat. split; [reflexivity |]. now rewrite startswith_quote_cons.
Qed.

Lemma rstrip_empty_or_head (c : ascii) (r : string) :
  Py.rstrip (String c r) quote_character = ""
  \/ exists r', Py.rstrip (String c r) quote_character = String c r'.
Proof.
  rewrite rstrip_cons. destruct (Py.rstrip r quote_character) as [| d t].
  - destruct (Py.char_in c quote_character); [left | right; exists ""]; reflexivity.
  - right. eexists. reflexivity.
Qed.

(** [rstrip] takes a run of quotes off the back. *)
Lemma rstrip_decompose (s : string) :
  exists n, s = Py.rstrip s quote_character +:+ Py.repeat quote_character n
            /\ Py.endswith (Py.rstrip s quote_character) quote_character = false.
Proof.
  induction s as [| c r (n & Hn & He)].
  - exists 0%nat. split; reflexivity.
  - rewrite rstrip_cons. destruct (Py.rstrip r quote_character) as [| d t] eqn:Hr.
    + rewrite char_in_quote. destruct (Ascii.eqb c dquote) eqn:Hc.
      * apply Ascii.eqb_eq in Hc. subst c. exists (S n). split; [| reflexivity].
        simpl in Hn. rewrite Hn. reflexivity.
      * exists n. split.
        -- simpl in Hn. simpl. congruence.
        -- rewrite endswith_quote_cons, Hc. reflexivity.
    + exists n. split.
      * simpl. simpl in Hn. congruence.
      * rewrite endswith_quote_cons, He. simpl. now rewrite andb_false_r.
Qed.

Lemma rstrip_keeps_clean_head (s : string) :
  Py.startswith s quote_character = false ->
  Py.startswith (Py.rstrip s quote_character) quote_character = false.
Proof.
  destruct s as [| c r]; [reflexivity |].
  intros Hs. destruct (rstrip_empty_or_head c r) as [-> | [r' ->]]; [reflexivity |].
  rewrite startswith_quote_cons in *. exact Hs.
Qed.

(** Every string is a run of quotes, its stripped form, and a run of
    quotes; the stripped form has a quote at neither end. *)
Lemma strip_quotes_decompose (s : string) :
  exists m n,
    s = Py.repeat quote_character m +:+ _strip_quotes s +:+ Py.repeat quote_character n
    /\ Py.startswith (_strip_quotes s) quote_character = false
    /\ Py.endswith (_strip_quotes s) quote_character = false.
Proof.
  unfold _strip_quotes, Py.strip.
  destruct (lstrip_decompose s) as (m & Hm & Hs).
  destruct (rstrip_decompose (Py.lstrip s quote_character)) as (n & Hn & He).
  exists m, n. split; [| split].
  - rewrite <- Hn. exact Hm.
  - now apply rstrip_keeps_clean_head.
  - exact He.
Qed.

Lemma lstrip_repeat_quote (m : nat) (t : string) :
  Py.lstrip (Py.repeat quote_character m +:+ t) quote_character
  = Py.lstrip t quote_character.
Proof. induction m as [| m IH]; [reflexivity | exact IH]. Qed.

Lemma lstrip_clean (r : string) :
  Py.startswith r quote_character = false -> Py.lstrip r quote_character = r.
Proof.
  destruct r as [| c r]; [reflexivity |].
  rewrite startswith_quote_cons. intros Hc. simpl. now rewrite orb_false_r, Hc.
Qed.

Lemma rstrip_repeat_quote (n : nat) :
  Py.rstrip (Py.repeat quote_character n) quote_character = "".
Proof. induction n as [| n IH]; [reflexivity |]. simpl. now rewrite IH. Qed.

Lemma rstrip_app_repeat_quote (r : string) (n : nat) :
  Py.rstrip (r +:+ Py.repeat quote_character n) quote_character
  = Py.rstrip r quote_character.
Proof.
  induction r as [| c r IH].
  - apply rstrip_repeat_quote.
  - simpl. now rewrite IH.
Qed.

Lemma rstrip_clean (r : string) :
  Py.endswith r quote_character = false -> Py.rstrip r quote_character = r.
Proof.
  induction r as [| c r IH]; [reflexivity |].
  rewrite endswith_quote_cons. intros H.
  apply orb_false_elim in H as [Hc He]. simpl. rewrite (IH He).
  destruct r as [| d t]; [| reflexivity].
  rewrite orb_false_r. simpl in Hc. rewrite andb_true_r in Hc. now rewrite Hc.
Qed.

(** Stripping removes the whole run of quotes at either end. *)
Lemma strip_quotes_runs (m n : nat) (r : string) :
  Py.startswith r quote_character = false ->
  Py.endswith r quote_character = false ->
  _strip_quotes (Py.repeat quote_character m +:+ r +:+ Py.repeat quote_character n) = r.
Proof.
  intros Hs He. unfold _strip_quotes, Py.strip.
  rewrite lstrip_repeat_quote.
  destruct r as [| c r].
  - simpl String.append.
    rewrite <- (append_empty_r (Py.repeat quote_character n)), lstrip_repeat_quote.
    reflexivity.
  - rewrite lstrip_clean by (simpl String.append; now rewrite startswith_quote_cons in *).
    rewrite rstrip_app_repeat_quote. now apply rstrip_clean.
Qed.

(** ** Identifier normalisation *)

Example upper_example : Py.upper "my_Table1" = "MY_TABLE1".
Proof. reflexivity. Qed.

Example lower_example : Py.lower "Dynamic_TABLE" = "dynamic_table".
Proof. reflexivity. Qed.

Example make_match_kwargs_example :
  _make_match_kwargs (mkQuoting false true false)
    None (Some "analytics") (Some (quote_character +:+ "orders" +:+ quote_character))
  = [("identifier", "orders"); ("schema", "analytics")].
Proof. reflexivity. Qed.

Lemma make_match_kwargs_unfold (quoting : Quoting) (database schema identifier : option string) :
  _make_match_kwargs quoting database schema identifier
  = filter_null_values
      [("identifier", match_part (quoting_identifier quoting) identifier);
       ("schema", match_part (quoting_schema quoting) schema);
       ("database", match_part (quoting_database quoting) database)].
Proof. reflexivity. Qed.

Lemma dict_get_three (a b c : option string) :
  let d := filter_null_values [("identifier", a); ("schema", b); ("database", c)] in
  dict_get d "identifier" = a /\ dict_get d "schema" = b /\ dict_get d "database" = c.
Proof. destruct a, b, c; repeat split; reflexivity. Qed.

Lemma make_match_kwargs_part quoting database schema identifier key flag part :
  In (key, flag, part) (path_parts quoting database schema identifier) ->
  dict_get (_make_match_kwargs quoting database schema identifier) key = match_part flag part.
Proof.
  intros Hin. rewrite make_match_kwargs_unfold.
  pose proof (dict_get_three (match_part (quoting_identifier quoting) identifier)
                (match_part (quoting_schema quoting) schema)
                (match_part (quoting_database quoting) database)) as (Hi & Hs & Hd).
  destruct Hin as [E | [E | [E | []]]]; inversion E; subst; assumption.
Qed.

(** C5: each path part given to [_make_match_kwargs] is normalised on its
    own.  A part wrapped in the quote character on both ends has its
    quotes stripped and its interior kept character for character, with no
    case folding, whatever the policy says; any other part is folded to
    upper case when the policy does not quote that part, and is left as it
    is when the policy quotes it. *)
Theorem make_match_kwargs_normalizes_each_part
    (quoting : Quoting) (database schema identifier : option string)
    (key : string) (flag : bool) (part : option string) (s : string) :
  In (key, flag, part) (path_parts quoting database schema identifier) ->
  part = Some s ->
  let value := dict_get (_make_match_kwargs quoting database schema identifier) key in
  (_is_quoted (Some s) = true ->
     value = Some (_strip_quotes s)
     /\ exists m n,
          s = Py.repeat quote_character m +:+ _strip_quotes s +:+ Py.repeat quote_character n)
  /\ (_is_quoted (Some s) = false -> flag = false -> value = Some (Py.upper s))
  /\ (_is_quoted (Some s) = false -> flag = true -> value = Some s).
Proof.
  intros Hin -> value. subst value.
  rewrite (make_match_kwargs_part _ _ _ _ _ _ _ Hin). unfold match_part.
  split; [| split].
  - intros ->. split; [reflexivity |].
    destruct (strip_quotes_decompose s) as (m & n & H & _). eauto.
  - intros -> ->. reflexivity.
  - intros -> ->. reflexivity.
Qed.

Lemma make_match_kwargs_normalizes_each_part_witness :
  In ("schema", false, Some quoted_my_col)
     (path_parts (mkQuoting true false true) (Some "db") (Some quoted_my_col) None)
  /\ dict_get (_make_match_kwargs (mkQuoting true false true)
                 (Some "db") (Some quoted_my_col) None) "schema"
     = Some "My Col".
Proof.
  split; [right; left; reflexivity |].
  apply (make_match_kwargs_normalizes_each_part (mkQuoting true false true)
           (Some "db") (Some quoted_my_col) None "schema" false (Some quoted_my_col)
           quoted_my_col);
    [right; left; reflexivity | reflexivity | reflexivity].
Defined.

(** C10: quote stripping is not limited to one matching pair.  For a path
    part that starts and ends with the quote character, every quote
    character of the leading run and of the trailing run is removed: a part
    made of [m] quotes, an interior [r] with a quote at neither end, and [n]
    quotes becomes [r].  Two quotes, X, two quotes becomes X (m = n = 2),
    and the quote character alone counts as quoted and becomes the empty
    string (m = 1, n = 0, empty interior). *)
Theorem strip_quotes_removes_every_quote
    (quoting : Quoting) (database schema identifier : option string)
    (key : string) (flag : bool) (part : option string) (m n : nat) (r : string) :
  In (key, flag, part) (path_parts quoting database schema identifier) ->
  Py.startswith r quote_character = false ->
  Py.endswith r quote_character = false ->
  part = Some (Py.repeat quote_character m +:+ r +:+ Py.repeat quote_character n) ->
  _is_quoted part = true ->
  dict_get (_make_match_kwargs quoting database schema identifier) key = Some r.
Proof.
  intros Hin Hs He -> Hq.
  rewrite (make_match_kwargs_part _ _ _ _ _ _ _ Hin). unfold match_part.
  rewrite Hq. simpl. now rewrite strip_quotes_runs.
Qed.

Lemma strip_quotes_removes_every_quote_witness :
  (_is_quoted (Some (Py.repeat quote_character 2 +:+ "X" +:+ Py.repeat quote_character 2)) = true
   /\ dict_get (_make_match_kwargs (mkQuoting false false false) None None
                  (Some (Py.repeat quote_character 2 +:+ "X" +:+ Py.repeat quote_character 2)))
               "identifier" = Some "X")
  /\ (_is_quoted (Some quote_character) = true
      /\ dict_get (_make_match_kwargs (mkQuoting false false false) None None
                     (Some quote_character)) "identifier" = Some "").
Proof.
  split; (split; [reflexivity |]).
  - apply (strip_quotes_removes_every_quote (mkQuoting false false false) None None
             (Some (Py.repeat quote_character 2 +:+ "X" +:+ Py.repeat quote_character 2))
             "identifier" false
             (Some (Py.repeat quote_character 2 +:+ "X" +:+ Py.repeat quote_character 2))
             2 2 "X");
      [left; reflexivity | reflexivity | reflexivity | reflexivity | reflexivity].
  - apply (strip_quotes_removes_every_quote (mkQuoting false false false) None None
             (Some quote_character) "identifier" false (Some quote_character) 1 0 "");
      [left; reflexivity | reflexivity | reflexivity | reflexivity | reflexivity].
Defined.

(** ** Relation classification *)

Example parse_list_relations_result_example :
  _parse_list_relations_result plain_create
    [VStr "DB"; VStr "SALES"; VStr "ORDERS"; VStr "TABLE"; VStr "Y"; VStr "N"]
  = Return (mkRelation (VStr "DB") (VStr "SALES") (VStr "ORDERS") (Some DynamicTable)
              INFO_SCHEMA_TABLE_FORMAT (mkQuoting true true true)).
Proof. reflexivity. Qed.

Lemma resolve_relation_type_str (s : string) :
  resolve_relation_type (VStr s)
  = except_ValueError (get_relation_type (Py.lower s)) (Return External).
Proof. reflexivity. Qed.

Lemma resolve_relation_type_known (s : string) (t : SnowflakeRelationType) :
  Py.lower s = relation_type_value t -> resolve_relation_type (VStr s) = Return t.
Proof.
  intros H. rewrite resolve_relation_type_str, H. destruct t; reflexivity.
Qed.

Lemma resolve_relation_type_unknown (s : string) :
  (forall t, Py.lower s <> relation_type_value t) ->
  resolve_relation_type (VStr s) = Return External.
Proof.
  intros H. rewrite resolve_relation_type_str. unfold get_relation_type.
  assert (Hf : forall t, String.eqb (relation_type_value t) (Py.lower s) = false).
  { intros t. apply String.eqb_neq. intros E. exact (H t (eq_sym E)). }
  destruct (List.find _ relation_type_members) as [t |] eqn:E; [| reflexivity].
  apply List.find_some in E as [_ E]. now rewrite Hf in E.
Qed.

Lemma resolve_relation_type_total (s : string) :
  exists t, resolve_relation_type (VStr s) = Return t.
Proof.
  rewrite resolve_relation_type_str. unfold get_relation_type.
  destruct (List.find _ relation_type_members) as [t |]; [exists t | exists External];
    reflexivity.
Qed.

Lemma parse_list_relations_result_type (create : RelationCreate)
    (database schema identifier relation_type is_dynamic is_iceberg : PyVal)
    (resolved : SnowflakeRelationType) :
  resolve_relation_type relation_type = Return resolved ->
  _parse_list_relations_result create
    [database; schema; identifier; relation_type; is_dynamic; is_iceberg]
  = create database schema identifier
      (if relation_type_eqb resolved Table && py_eq_str is_dynamic "Y"
       then DynamicTable else resolved)
      (if py_in_strs is_iceberg ["Y"; "YES"]
       then ICEBERG_TABLE_FORMAT else INFO_SCHEMA_TABLE_FORMAT)
      (mkQuoting true true true).
Proof. intros H. unfold _parse_list_relations_result. rewrite H. reflexivity. Qed.

(** C6: classifying the relation type string of a listing row never
    raises.  A string whose lower-case form is the value of a kind resolves
    to that kind, whatever its casing; every other string resolves to
    [External]; and a row with a string in its kind column always gets
    through the classification: it is handed to the constructor of the
    relation with the kind resolved, [External] when the string is not
    recognised, and what comes out is what the constructor gives; with a
    constructor that accepts every path the row is always classified, with
    kind [External] when the string is not recognised. *)
Theorem classify_relation_type_never_raises (s : string) :
  (forall t, Py.lower s = relation_type_value t -> resolve_relation_type (VStr s) = Return t)
  /\ ((forall t, Py.lower s <> relation_type_value t) ->
      resolve_relation_type (VStr s) = Return External)
  /\ (forall (create : RelationCreate) database schema identifier is_dynamic is_iceberg,
        let table_format :=
          if py_in_strs is_iceberg ["Y"; "YES"]
          then ICEBERG_TABLE_FORMAT else INFO_SCHEMA_TABLE_FORMAT in
        exists t,
          resolve_relation_type (VStr s) = Return t
          /\ _parse_list_relations_result create
               [database; schema; identifier; VStr s; is_dynamic; is_iceberg]
             = create database schema identifier
                 (if relation_type_eqb t Table && py_eq_str is_dynamic "Y"
                  then DynamicTable else t)
                 table_format (mkQuoting true true true)
          /\ ((forall t', Py.lower s <> relation_type_value t') ->
              _parse_list_relations_result create
                [database; schema; identifier; VStr s; is_dynamic; is_iceberg]
              = create database schema identifier External table_format
                  (mkQuoting true true true)))
  /\ (forall database schema identifier is_dynamic is_iceberg,
        exists rel,
          _parse_list_relations_result plain_create
            [database; schema; identifier; VStr s; is_dynamic; is_iceberg] = Return rel
          /\ ((forall t, Py.lower s <> relation_type_value t) -> rel_type rel = Some External)).
Proof.
  split; [| split; [| split]].
  - intros t. apply resolve_relation_type_known.
  - apply resolve_relation_type_unknown.
  - intros create database schema identifier is_dynamic is_iceberg table_format.
    destruct (resolve_relation_type_total s) as [t Ht].
    exists t. split; [exact Ht |].
    pose proof (parse_list_relations_result_type create database schema identifier (VStr s)
                  is_dynamic is_iceberg t Ht) as Hrun.
    split; [exact Hrun |].
    intros Hunknown. rewrite (resolve_relation_type_unknown s Hunknown) in Ht.
    injection Ht as <-. exact Hrun.
  - intros database schema identifier is_dynamic is_iceberg.
    destruct (resolve_relation_type_total s) as [t Ht].
    rewrite (parse_list_relations_result_type plain_create database schema identifier
               (VStr s) is_dynamic is_iceberg t Ht).
    eexists. split; [reflexivity |].
    intros Hunknown. rewrite (resolve_relation_type_unknown s Hunknown) in Ht.
    injection Ht as <-. reflexivity.
Qed.

Lemma classify_relation_type_never_raises_witness :
  resolve_relation_type (VStr "Dynamic_TABLE") = Return DynamicTable
  /\ ((forall t, Py.lower "STAGE" <> relation_type_value t)
      /\ resolve_relation_type (VStr "STAGE") = Return External).
Proof.
  split.
  - apply (proj1 (classify_relation_type_never_raises "Dynamic_TABLE") DynamicTable).
    reflexivity.
  - assert (H : forall t, Py.lower "STAGE" <> relation_type_value t)
      by (intros t; destruct t; discriminate).
    split; [exact H |].
    apply (proj1 (proj2 (classify_relation_type_never_raises "STAGE")) H).
Defined.

(** A kind column that holds no string is outside the claim: [None] has no
    [lower] method, and the error is not a [ValueError]. *)
Example parse_list_relations_result_null_kind :
  _parse_list_relations_result plain_create [VStr "DB"; VStr "S"; VStr "T"; VNone; VStr "N"; VStr "N"]
  = Raise (mkExc AttributeError "object has no attribute 'lower'").
Proof. reflexivity. Qed.

(** C4, as stated, fails: a listing row of resolved kind [Table] whose
    dynamic flag is the boolean true is handed to the constructor with the
    kind [Table], and the relation keeps it. *)
Lemma dynamic_flag_true_keeps_table :
  resolve_relation_type (VStr "TABLE") = Return Table
  /\ (forall create : RelationCreate,
        _parse_list_relations_result create
          [VStr "DB"; VStr "SALES"; VStr "ORDERS"; VStr "TABLE"; VBool true; VStr "N"]
        = create (VStr "DB") (VStr "SALES") (VStr "ORDERS") Table INFO_SCHEMA_TABLE_FORMAT
            (mkQuoting true true true))
  /\ exists rel,
       _parse_list_relations_result plain_create
         [VStr "DB"; VStr "SALES"; VStr "ORDERS"; VStr "TABLE"; VBool true; VStr "N"]
       = Return rel
       /\ rel_type rel = Some Table
       /\ rel_type rel <> Some DynamicTable.
Proof.
  split; [reflexivity |]. split; [reflexivity |].
  eexists. split; [reflexivity |]. split; [reflexivity | discriminate].
Qed.

(** The two readers of the flag disagree on the string YES: the listing
    keeps [Table], the single-relation catalog reports a dynamic table. *)
Example dynamic_flag_yes_on_both_paths :
  (rel_type <$> _parse_list_relations_result plain_create
     [VStr "DB"; VStr "SALES"; VStr "ORDERS"; VStr "TABLE"; VStr "YES"; VStr "N"])
  = Return (Some Table)
  /\ get_catalog_for_single_relation_table_type
       [("kind", VStr "TABLE"); ("is_dynamic", VStr "YES")] = VStr "DYNAMIC_TABLE".
Proof. split; reflexivity. Qed.

Lemma py_eq_str_true (v : PyVal) (lit : string) :
  py_eq_str v lit = true <-> v = VStr lit.
Proof.
  destruct v as [| b | z | s]; simpl; try (split; [discriminate | discriminate]).
  rewrite String.eqb_eq. split; [now intros -> | now intros [= ->]].
Qed.

Lemma py_eq_str_false (v : PyVal) (lit : string) :
  py_eq_str v lit = false <-> v <> VStr lit.
Proof.
  rewrite <- py_eq_str_true. destruct (py_eq_str v lit); split; congruence.
Qed.

Lemma relation_type_eqb_true (a b : SnowflakeRelationType) :
  relation_type_eqb a b = true <-> a = b.
Proof. destruct a, b; simpl; split; congruence. Qed.

Lemma catalog_table_type_unfold (row : list (string * PyVal)) :
  get_catalog_for_single_relation_table_type row
  = if (py_eq_str (row_get row "is_dynamic") "Y" || py_eq_str (row_get row "is_dynamic") "YES")
       && py_eq_str (row_get row "kind") "TABLE"
    then VStr "DYNAMIC_TABLE" else row_get row "kind".
Proof.
  unfold get_catalog_for_single_relation_table_type, py_in_strs. simpl existsb.
  now rewrite orb_false_r.
Qed.

(** C4, amended: a listing row of resolved kind [Table] whose dynamic flag
    is the string Y is classified [DynamicTable]; a row whose flag is
    neither Y nor YES (the boolean true included), or whose resolved kind
    is not [Table], keeps its resolved kind: that kind is what the row is
    handed to the constructor of the relation with, and what the relation
    has when the constructor accepts every path.  In the catalog of a
    single relation, a TABLE kind with flag Y or YES is reported as
    DYNAMIC_TABLE, and every other row keeps its kind. *)
Theorem dynamic_flag_overrides_table_kind :
  (forall (create : RelationCreate) database schema identifier relation_type is_dynamic
          is_iceberg resolved,
      resolve_relation_type relation_type = Return resolved ->
      let row := [database; schema; identifier; relation_type; is_dynamic; is_iceberg] in
      let table_format :=
        if py_in_strs is_iceberg ["Y"; "YES"]
        then ICEBERG_TABLE_FORMAT else INFO_SCHEMA_TABLE_FORMAT in
      (resolved = Table -> is_dynamic = VStr "Y" ->
       _parse_list_relations_result create row
       = create database schema identifier DynamicTable table_format (mkQuoting true true true))
      /\ (resolved <> Table \/ (is_dynamic <> VStr "Y" /\ is_dynamic <> VStr "YES") ->
          _parse_list_relations_result create row
          = create database schema identifier resolved table_format
              (mkQuoting true true true))
      /\ exists rel,
           _parse_list_relations_result plain_create row = Return rel
           /\ (resolved = Table -> is_dynamic = VStr "Y" -> rel_type rel = Some DynamicTable)
           /\ (resolved <> Table \/ (is_dynamic <> VStr "Y" /\ is_dynamic <> VStr "YES") ->
               rel_type rel = Some resolved))
  /\ (forall row : list (string * PyVal),
        (row_get row "kind" = VStr "TABLE" ->
         row_get row "is_dynamic" = VStr "Y" \/ row_get row "is_dynamic" = VStr "YES" ->
         get_catalog_for_single_relation_table_type row = VStr "DYNAMIC_TABLE")
        /\ (row_get row "kind" <> VStr "TABLE"
            \/ (row_get row "is_dynamic" <> VStr "Y" /\ row_get row "is_dynamic" <> VStr "YES") ->
            get_catalog_for_single_relation_table_type row = row_get row "kind")).
Proof.
  split.
  - intros create database schema identifier relation_type is_dynamic is_iceberg resolved H
      row table_format.
    assert (Hkept : resolved <> Table \/ (is_dynamic <> VStr "Y" /\ is_dynamic <> VStr "YES") ->
              (if relation_type_eqb resolved Table && py_eq_str is_dynamic "Y"
               then DynamicTable else resolved) = resolved).
    { intros [Hk | [Hy _]].
      - destruct (relation_type_eqb resolved Table) eqn:E; [| reflexivity].
        apply relation_type_eqb_true in E. contradiction.
      - apply py_eq_str_false in Hy. now rewrite Hy, andb_false_r. }
    subst row table_format. split; [| split].
    + intros -> ->. now rewrite (parse_list_relations_result_type create _ _ _ _ _ _ Table H).
    + intros Hk. rewrite (parse_list_relations_result_type create _ _ _ _ _ _ resolved H).
      now rewrite (Hkept Hk).
    + rewrite (parse_list_relations_result_type plain_create _ _ _ _ _ _ resolved H).
      eexists. split; [reflexivity |]. cbn [plain_create rel_type]. split.
      * intros -> ->. reflexivity.
      * intros Hk. now rewrite (Hkept Hk).
  - intros row. rewrite catalog_table_type_unfold. split.
    + intros Hk Hf. apply py_eq_str_true in Hk. rewrite Hk, andb_true_r.
      destruct Hf as [Hf | Hf]; apply py_eq_str_true in Hf; rewrite Hf;
        [reflexivity | now rewrite orb_true_r].
    + intros [Hk | [Hy Hyes]].
      * apply py_eq_str_false in Hk. now rewrite Hk, andb_false_r.
      * apply py_eq_str_false in Hy, Hyes. now rewrite Hy, Hyes.
Qed.

Lemma dynamic_flag_overrides_table_kind_witness :
  resolve_relation_type (VStr "TABLE") = Return Table
  /\ exists rel,
       _parse_list_relations_result plain_create
         [VStr "DB"; VStr "SALES"; VStr "ORDERS"; VStr "TABLE"; VStr "Y"; VStr "N"] = Return rel
       /\ rel_type rel = Some DynamicTable.
Proof.
  split; [reflexivity |].
  destruct (proj1 dynamic_flag_overrides_table_kind plain_create
              (VStr "DB") (VStr "SALES") (VStr "ORDERS") (VStr "TABLE") (VStr "Y") (VStr "N")
              Table eq_refl) as (_ & _ & rel & Hrel & Hy & _).
  exists rel. split; [exact Hrel | exact (Hy eq_refl eq_refl)].
Defined.

(** ** Relation listing *)

Example list_relations_example :
  list_relations_without_caching plain_create
    (fun _ _ => Return (mkTable ["NAME"; "Kind"; "database_name"; "schema_name"; "is_dynamic";
                                 "is_iceberg"; "owner"]
                          [[VStr "ORDERS"; VStr "TABLE"; VStr "DB"; VStr "SALES"; VStr "N";
                            VStr "Y"; VStr "ADMIN"];
                           [VStr "STG"; VStr "STAGE"; VStr "DB"; VStr "SALES"; VStr "N";
                            VStr "N"; VStr "ADMIN"]]))
    (schema_descriptor "DB" "SALES")
  = Return [mkRelation (VStr "DB") (VStr "SALES") (VStr "ORDERS") (Some Table)
              ICEBERG_TABLE_FORMAT (mkQuoting true true true);
            mkRelation (VStr "DB") (VStr "SALES") (VStr "STG") (Some External)
              INFO_SCHEMA_TABLE_FORMAT (mkQuoting true true true)].
Proof. reflexivity. Qed.

(** C3: when the metadata fetch fails with a database error of the "not
    found" class, the listing is empty instead of an error: error code
    002043 (02000) in [list_relations_without_caching], the text "does not
    exist or not authorized" in [get_columns_in_relation].  A database
    error without that signature, and any error that is no database error,
    is raised again as it came. *)
Theorem not_found_is_an_empty_listing :
  (forall (create : RelationCreate) (execute_macro : MacroExecutor)
          (schema_relation : SnowflakeRelation) (exc : Exception),
      execute_macro LIST_RELATIONS_MACRO_NAME schema_relation = Raise exc ->
      (exc_class exc = DbtDatabaseError ->
       Py.contains (exc_str exc) "002043 (02000)" = true ->
       list_relations_without_caching create execute_macro schema_relation = Return [])
      /\ (exc_class exc <> DbtDatabaseError
          \/ Py.contains (exc_str exc) "002043 (02000)" = false ->
          list_relations_without_caching create execute_macro schema_relation = Raise exc))
  /\ (forall (Col : Type) (super_get_columns_in_relation : SnowflakeRelation -> result (list Col))
             (relation : SnowflakeRelation) (exc : Exception),
        super_get_columns_in_relation relation = Raise exc ->
        (exc_class exc = DbtDatabaseError ->
         Py.contains (exc_str exc) "does not exist or not authorized" = true ->
         get_columns_in_relation super_get_columns_in_relation relation = Return [])
        /\ (exc_class exc <> DbtDatabaseError
            \/ Py.contains (exc_str exc) "does not exist or not authorized" = false ->
            get_columns_in_relation super_get_columns_in_relation relation = Raise exc)).
Proof.
  split.
  - intros create execute_macro schema_relation exc H.
    unfold list_relations_without_caching, is_DbtDatabaseError. rewrite H. split.
    + intros -> ->. reflexivity.
    + intros [Hc | Hm].
      * destruct (exc_class exc); try reflexivity. contradiction.
      * rewrite Hm. destruct (exc_class exc); reflexivity.
  - intros Col super_get schema_relation exc H.
    unfold get_columns_in_relation, is_DbtDatabaseError. rewrite H. split.
    + intros -> ->. reflexivity.
    + intros [Hc | Hm].
      * destruct (exc_class exc); try reflexivity. contradiction.
      * rewrite Hm. destruct (exc_class exc); reflexivity.
Qed.

Lemma not_found_is_an_empty_listing_witness :
  list_relations_without_caching plain_create (fun _ _ => Raise schema_not_found)
    (schema_descriptor "DB" "MISSING") = Return []
  /\ get_columns_in_relation (Col := string) (fun _ => Raise relation_not_found)
       (schema_descriptor "DB" "SALES") = Return [].
Proof.
  split.
  - apply (proj1 (proj1 not_found_is_an_empty_listing plain_create
                    (fun _ _ => Raise schema_not_found)
                    (schema_descriptor "DB" "MISSING") schema_not_found eq_refl));
      reflexivity.
  - apply (proj1 (proj2 not_found_is_an_empty_listing string
                    (fun _ => Raise relation_not_found)
                    (schema_descriptor "DB" "SALES") relation_not_found eq_refl));
      reflexivity.
Defined.

Example other_database_error_propagates :
  list_relations_without_caching plain_create
    (fun _ _ => Raise (mkExc DbtDatabaseError "000606 (57P03): No active warehouse selected"))
    (schema_descriptor "DB" "SALES")
  = Raise (mkExc DbtDatabaseError "000606 (57P03): No active warehouse selected").
Proof. reflexivity. Qed.

(** ** Catalog integration registry *)

(** What a registration does to the adapter, step by step: the copy is a
    new object, the name is written to the copy, the copy is filed. *)
Lemma add_catalog_integration_run (st : Adapter) (catalog_integration : ref)
    (cfg : CatalogIntegrationConfig) :
  objects st !! catalog_integration = Some cfg ->
  add_catalog_integration catalog_integration st
  = (Return (integration_of (upper_config cfg)),
     mkAdapter
       (<[fresh (dom (objects st)) := upper_config cfg]>
          (<[fresh (dom (objects st)) := cfg]> (objects st)))
       (<[Py.upper (cfg_name cfg) := integration_of (upper_config cfg)]>
          (catalog_integrations st))
       (registry_reads st)).
Proof.
  intros H. unfold add_catalog_integration, mbind, M_bind.
  unfold deepcopy at 1. rewrite H.
  unfold getattr_name at 1. cbn [objects]. rewrite lookup_insert_eq.
  unfold setattr_name at 1. cbn [objects]. rewrite lookup_insert_eq.
  unfold super_add_catalog_integration. cbn [objects]. rewrite lookup_insert_eq.
  reflexivity.
Qed.

Lemma fresh_ref_is_new (st : Adapter) (r : ref) (o : CatalogIntegrationConfig) :
  objects st !! r = Some o -> fresh (dom (objects st)) <> r.
Proof.
  intros H E. apply (is_fresh (dom (objects st))). rewrite E.
  apply elem_of_dom. eauto.
Qed.

(** The store is shared: a write through a reference is seen by whoever
    holds that reference. *)
Lemma setattr_name_is_visible (st : Adapter) (r : ref) (cfg : CatalogIntegrationConfig)
    (value : string) :
  objects st !! r = Some cfg ->
  exists st',
    setattr_name r value st = (Return tt, st')
    /\ objects st' !! r = Some (mkConfig value (cfg_catalog_type cfg) (cfg_table_format cfg)).
Proof.
  intros H. unfold setattr_name. rewrite H. eexists. split; [reflexivity |].
  cbn [objects]. apply lookup_insert_eq.
Qed.

(** C7: registration never mutates the descriptor it is given.  The
    upper-case name is written to a deep copy, so when
    [add_catalog_integration] returns, the caller's object holds what it
    held before the call, its name included; so does every other object
    that existed before the call. *)
Theorem add_catalog_integration_leaves_argument_unchanged
    (st : Adapter) (catalog_integration : ref) (cfg : CatalogIntegrationConfig) :
  objects st !! catalog_integration = Some cfg ->
  exists integration st',
    add_catalog_integration catalog_integration st = (Return integration, st')
    /\ ci_name integration = Py.upper (cfg_name cfg)
    /\ objects st' !! catalog_integration = Some cfg
    /\ (forall r o, objects st !! r = Some o -> objects st' !! r = Some o).
Proof.
  intros H. rewrite (add_catalog_integration_run st catalog_integration cfg H).
  do 2 eexists. split; [reflexivity |]. split; [reflexivity |].
  assert (Hkeep : forall r o, objects st !! r = Some o ->
            (<[fresh (dom (objects st)) := upper_config cfg]>
               (<[fresh (dom (objects st)) := cfg]> (objects st))) !! r = Some o).
  { intros r o Hr. pose proof (fresh_ref_is_new st r o Hr) as Hne.
    now rewrite !lookup_insert_ne. }
  split; [apply Hkeep; exact H | exact Hkeep].
Qed.

Lemma add_catalog_integration_leaves_argument_unchanged_witness :
  objects caller_state !! 1%positive = Some my_catalog
  /\ fst (add_catalog_integration 1%positive caller_state)
     = Return (mkIntegration "MY_CATALOG" "iceberg_rest" (Some "iceberg"))
  /\ objects (snd (add_catalog_integration 1%positive caller_state)) !! 1%positive
     = Some my_catalog.
Proof.
  split; [reflexivity |]. split; [reflexivity |].
  destruct (add_catalog_integration_leaves_argument_unchanged caller_state 1%positive
              my_catalog eq_refl) as (integration & st' & Hrun & _ & Hsame & _).
  rewrite Hrun. exact Hsame.
Defined.

Lemma get_catalog_integration_run (st : Adapter) (name : string) :
  get_catalog_integration name st
  = (match catalog_integrations st !! Py.upper name with
     | Some integration => Return integration
     | None =>
         Raise (mkExc DbtCatalogIntegrationNotFoundError
                  ("Catalog integration not found: " +:+ Py.upper name))
     end,
     mkAdapter (objects st) (catalog_integrations st)
       (registry_reads st ++ [Py.upper name])%list).
Proof.
  unfold get_catalog_integration, super_get_catalog_integration.
  destruct (catalog_integrations st !! Py.upper name); reflexivity.
Qed.

(** C8: names are put in upper case when an integration is registered and
    when it is looked up.  After a descriptor named [n] is registered, a
    lookup under any [m] with the same upper-case form as [n] returns the
    integration that the registration returned, whatever the casing of [n]
    and of [m]. *)
Theorem catalog_integration_lookup_ignores_case
    (st : Adapter) (catalog_integration : ref) (cfg : CatalogIntegrationConfig) (m : string) :
  objects st !! catalog_integration = Some cfg ->
  Py.upper m = Py.upper (cfg_name cfg) ->
  exists integration st',
    add_catalog_integration catalog_integration st = (Return integration, st')
    /\ ci_name integration = Py.upper (cfg_name cfg)
    /\ fst (get_catalog_integration m st') = Return integration.
Proof.
  intros H Hm. rewrite (add_catalog_integration_run st catalog_integration cfg H).
  do 2 eexists. split; [reflexivity |]. split; [reflexivity |].
  rewrite get_catalog_integration_run. cbn [fst catalog_integrations].
  rewrite Hm, lookup_insert_eq. reflexivity.
Qed.

Lemma catalog_integration_lookup_ignores_case_witness :
  Py.upper "My_CATALOG" = Py.upper (cfg_name my_catalog)
  /\ fst (get_catalog_integration "My_CATALOG"
            (snd (add_catalog_integration 1%positive caller_state)))
     = fst (add_catalog_integration 1%positive caller_state).
Proof.
  split; [reflexivity |].
  destruct (catalog_integration_lookup_ignores_case caller_state 1%positive my_catalog
              "My_CATALOG" eq_refl eq_refl) as (integration & st' & Hrun & _ & Hget).
  rewrite Hrun. exact Hget.
Defined.

(** A later registration under a name with another upper-case form does
    not disturb the lookup. *)
Lemma catalog_integration_survives_other_registration
    (st : Adapter) (other : ref) (cfg : CatalogIntegrationConfig) (m : string)
    (integration : CatalogIntegration) :
  objects st !! other = Some cfg ->
  Py.upper (cfg_name cfg) <> Py.upper m ->
  fst (get_catalog_integration m st) = Return integration ->
  fst (get_catalog_integration m (snd (add_catalog_integration other st))) = Return integration.
Proof.
  intros H Hne Hget. rewrite (add_catalog_integration_run st other cfg H).
  rewrite get_catalog_integration_run in *. cbn [fst snd catalog_integrations] in *.
  now rewrite lookup_insert_ne.
Qed.

(** ** Catalog-aware relation builder *)

Section BuilderCases.

Context {RelationConfig CatalogRelation : Type}.
Variable catalog_name : RelationConfig -> option string.
Variable build_relation : CatalogIntegration -> RelationConfig -> result CatalogRelation.

Abbreviation build_with :=
  (build_catalog_relation RelationConfig CatalogRelation catalog_name build_relation).

(** The two branches of the builder, by what [catalog_name] gives. *)
Lemma build_catalog_relation_cases (model : RelationConfig) (st : Adapter) :
  (catalog_name model = None \/ catalog_name model = Some "" ->
   build_with model st = (Return None, st))
  /\ (forall catalog,
        catalog_name model = Some catalog -> catalog <> "" ->
        build_with model st
        = (match get_catalog_integration catalog st with
           | (Return integration, st') => (Some <$> build_relation integration model, st')
           | (Raise e, st') => (Raise e, st')
           end)
        /\ registry_reads (snd (build_with model st))
           = (registry_reads st ++ [Py.upper catalog])%list
        /\ (catalog_integrations st !! Py.upper catalog = None ->
            exists e,
              fst (build_with model st) = Raise e
              /\ exc_class e = DbtCatalogIntegrationNotFoundError)
        /\ (forall integration,
              catalog_integrations st !! Py.upper catalog = Some integration ->
              fst (build_with model st) = (Some <$> build_relation integration model))).
Proof.
  split.
  - intros [H | H]; unfold build_catalog_relation; rewrite H; reflexivity.
  - intros catalog H Hne.
    assert (Ht : Py.truthy catalog = true) by (destruct catalog; [contradiction | reflexivity]).
    assert (Hrun : build_with model st
              = (match get_catalog_integration catalog st with
                 | (Return integration, st') =>
                     (Some <$> build_relation integration model, st')
                 | (Raise e, st') => (Raise e, st')
                 end)).
    { unfold build_catalog_relation. rewrite H, Ht. unfold mbind, M_bind.
      destruct (get_catalog_integration catalog st) as [[integration | e] st'];
        [| reflexivity].
      unfold lift_result. destruct (build_relation integration model); reflexivity. }
    split; [exact Hrun |]. rewrite Hrun, get_catalog_integration_run.
    split; [| split].
    + destruct (catalog_integrations st !! Py.upper catalog); reflexivity.
    + intros ->. eexists. split; reflexivity.
    + intros integration ->. reflexivity.
Qed.

End BuilderCases.

(** C9, as the claim words it, fails: on an adapter as [__init__] leaves
    it, a model configuration that declares no catalog name, and for which
    the info-schema catalog stands in, does not get [None]: the registry
    is consulted, for INFO_SCHEMA, and the relation that this integration
    builds is returned. *)
Lemma undeclared_catalog_builds_default_relation :
  let build :=
    build_catalog_relation (option string) string
      (parse_model.catalog_name (option string) id info_schema_fallback) named_relation in
  let model : option string := None in
  registry_reads constructed_state = []
  /\ fst (build model constructed_state) = Return (Some "INFO_SCHEMA")
  /\ registry_reads (snd (build model constructed_state)) = ["INFO_SCHEMA"]
  /\ build model constructed_state <> (Return None, constructed_state).
Proof.
  cbv zeta.
  assert (Hfst : fst (build_catalog_relation (option string) string
                        (parse_model.catalog_name (option string) id info_schema_fallback)
                        named_relation None constructed_state)
                 = Return (Some "INFO_SCHEMA")) by (vm_compute; reflexivity).
  split; [reflexivity |]. split; [exact Hfst |]. split; [vm_compute; reflexivity |].
  intros H. rewrite H in Hfst. discriminate Hfst.
Qed.

Section BuilderProperties.

Context {RelationConfig CatalogRelation : Type}.
Variable declared_catalog : RelationConfig -> option string.
Variable default_catalog : RelationConfig -> option string.
Variable build_relation : CatalogIntegration -> RelationConfig -> result CatalogRelation.

Abbreviation build :=
  (build_catalog_relation RelationConfig CatalogRelation
     (parse_model.catalog_name RelationConfig declared_catalog default_catalog)
     build_relation).

(** C9, amended: the builder gives [None] and leaves the adapter as it
    was, so that the registry is not consulted, for a model configuration
    that declares no catalog name ([None], or the empty string, which
    Python counts as false) and for which no default catalog stands in
    either.  For a configuration that declares a name, and for one that
    declares none but for which a default catalog stands in, the registry
    is asked for that name, in upper case, once: when the name is absent
    the not-found error of the registry comes out, and otherwise the
    result is what the integration found builds from the configuration. *)
Theorem build_catalog_relation_follows_catalog_name
    (model : RelationConfig) (st : Adapter) :
  (declared_catalog model = None \/ declared_catalog model = Some "" ->
   default_catalog model = None \/ default_catalog model = Some "" ->
   build model st = (Return None, st))
  /\ (forall catalog,
        catalog <> "" ->
        declared_catalog model = Some catalog
        \/ ((declared_catalog model = None \/ declared_catalog model = Some "")
            /\ default_catalog model = Some catalog) ->
        build model st
        = (match get_catalog_integration catalog st with
           | (Return integration, st') => (Some <$> build_relation integration model, st')
           | (Raise e, st') => (Raise e, st')
           end)
        /\ registry_reads (snd (build model st))
           = (registry_reads st ++ [Py.upper catalog])%list
        /\ (catalog_integrations st !! Py.upper catalog = None ->
            exists e,
              fst (build model st) = Raise e
              /\ exc_class e = DbtCatalogIntegrationNotFoundError)
        /\ (forall integration,
              catalog_integrations st !! Py.upper catalog = Some integration ->
              fst (build model st) = (Some <$> build_relation integration model))).
Proof.
  split.
  - intros Hdeclared Hdefault.
    apply (proj1 (build_catalog_relation_cases _ build_relation model st)).
    unfold parse_model.catalog_name.
    destruct Hdeclared as [-> | ->]; cbn [Py.truthy]; exact Hdefault.
  - intros catalog Hne Hname.
    apply (proj2 (build_catalog_relation_cases _ build_relation model st) catalog);
      [| exact Hne].
    assert (Ht : Py.truthy catalog = true) by (destruct catalog; [contradiction | reflexivity]).
    unfold parse_model.catalog_name.
    destruct Hname as [-> | [[-> | ->] ->]]; [now rewrite Ht | reflexivity | reflexivity].
Qed.

End BuilderProperties.

Lemma build_catalog_relation_follows_catalog_name_witness :
  fst (build_catalog_relation (option string) string
         (parse_model.catalog_name (option string) id no_fallback) named_relation
         (Some "my_catalog") registered_state)
  = Return (Some "MY_CATALOG")
  /\ build_catalog_relation (option string) string
       (parse_model.catalog_name (option string) id no_fallback) named_relation
       None registered_state
     = (Return None, registered_state)
  /\ (exists e,
        fst (build_catalog_relation (option string) string
               (parse_model.catalog_name (option string) id info_schema_fallback)
               named_relation None registered_state) = Raise e
        /\ exc_class e = DbtCatalogIntegrationNotFoundError).
Proof.
  split; [| split].
  - apply (proj2 (proj2 (proj2
             (proj2 (build_catalog_relation_follows_catalog_name
                       id no_fallback named_relation (Some "my_catalog") registered_state)
                "my_catalog" ltac:(discriminate) (or_introl eq_refl))))
             (mkIntegration "MY_CATALOG" "iceberg_rest" (Some "iceberg")) eq_refl).
  - apply (proj1 (build_catalog_relation_follows_catalog_name
                    id no_fallback named_relation None registered_state)).
    + left. reflexivity.
    + left. reflexivity.
  - apply (proj1 (proj2 (proj2
             (proj2 (build_catalog_relation_follows_catalog_name
                       id info_schema_fallback named_relation None registered_state)
                "INFO_SCHEMA" ltac:(discriminate)
                (or_intror (conj (or_introl eq_refl) eq_refl)))))
             eq_refl).
Defined.

(** ** Schema drift reconciliation *)

Lemma startswith_append (p s : string) : Py.startswith (p +:+ s) p = true.
Proof.
  induction p as [| c p IH]; [reflexivity |].
  simpl. now rewrite Ascii.eqb_refl, IH.
Qed.

Lemma contains_unfold (hay needle : string) :
  Py.contains hay needle
  = Py.startswith hay needle
    || match hay with
       | EmptyString => false
       | String _ r => Py.contains r needle
       end.
Proof. destruct hay; reflexivity. Qed.

Lemma contains_append (p s : string) : Py.contains (p +:+ s) p = true.
Proof. rewrite contains_unfold, startswith_append. reflexivity. Qed.

Lemma dash_requires_quoting (name : string) :
  Py.contains name "-" = true -> all_chars is_plain_char name = false.
Proof.
  induction name as [| c r IH]; [discriminate |].
  rewrite contains_unfold. intros H. apply orb_true_iff in H as [H | H].
  - simpl in H. rewrite andb_true_r in H. apply Ascii.eqb_eq in H. subst c. reflexivity.
  - simpl. rewrite (IH H). apply andb_false_r.
Qed.

Section SchemaDiffProperties.

Variable normalize : string -> string.
Variable is_reserved : string -> bool.
Variable quote : string -> string.

Abbreviation names := (normalized_names normalize).

Lemma column_map_cons (c : Column) (columns : list Column) :
  column_map normalize (c :: columns)
  = <[normalize (col_name c) := c]> (column_map normalize columns).
Proof. reflexivity. Qed.

Lemma column_map_lookup_none (columns : list Column) (n : string) :
  column_map normalize columns !! n = None <-> ~ In n (names columns).
Proof.
  induction columns as [| c columns IH].
  - unfold column_map. cbn [List.map normalized_names].
    rewrite list_to_map_nil, lookup_empty. simpl. tauto.
  - rewrite column_map_cons, lookup_insert_None, IH. simpl. tauto.
Qed.

Lemma absent_from_true (columns : list Column) (c : Column) :
  absent_from normalize (column_map normalize columns) c = true
  <-> ~ In (normalize (col_name c)) (names columns).
Proof.
  rewrite <- column_map_lookup_none. unfold absent_from.
  destruct (column_map normalize columns !! normalize (col_name c)); split; congruence.
Qed.

Lemma names_filter (p : Column -> bool) (columns : list Column) (n : string) :
  In n (names (List.filter p columns))
  <-> exists c, In c columns /\ p c = true /\ normalize (col_name c) = n.
Proof.
  unfold normalized_names. rewrite List.in_map_iff. split.
  - intros (c & Hn & Hc). apply List.filter_In in Hc as [Hc Hp]. eauto.
  - intros (c & Hc & Hp & Hn). exists c. split; [exact Hn |].
    apply List.filter_In. auto.
Qed.

Lemma names_in (columns : list Column) (n : string) :
  In n (names columns) <-> exists c, In c columns /\ normalize (col_name c) = n.
Proof.
  unfold normalized_names. rewrite List.in_map_iff. split; intros (c & H1 & H2); eauto.
Qed.

(** The names of the diff: added is incoming minus existing, removed is
    existing minus incoming. *)
Lemma added_names (existing incoming : list Column) (n : string) :
  In n (names (added (column_diff normalize existing incoming)))
  <-> In n (names incoming) /\ ~ In n (names existing).
Proof.
  unfold column_diff. cbn [added]. rewrite names_filter, names_in. split.
  - intros (c & Hc & Hp & <-). apply absent_from_true in Hp. eauto.
  - intros ((c & Hc & <-) & Hn). exists c. rewrite absent_from_true. auto.
Qed.

Lemma removed_names (existing incoming : list Column) (n : string) :
  In n (names (removed (column_diff normalize existing incoming)))
  <-> In n (names existing) /\ ~ In n (names incoming).
Proof.
  unfold column_diff. cbn [removed]. rewrite names_filter, names_in. split.
  - intros (c & Hc & Hp & <-). apply absent_from_true in Hp. eauto.
  - intros ((c & Hc & <-) & Hn). exists c. rewrite absent_from_true. auto.
Qed.

Lemma apply_additions (cs columns : list Column) :
  apply_operations normalize (List.map (mkOp AddColumn) cs) columns = (columns ++ cs)%list.
Proof.
  unfold apply_operations. revert columns.
  induction cs as [| c cs IH]; intros columns; simpl.
  - now rewrite List.app_nil_r.
  - rewrite IH. unfold apply_operation. simpl. now rewrite <- List.app_assoc.
Qed.

Lemma names_drop (d : Column) (columns : list Column) (n : string) :
  In n (names (List.filter
                 (fun c => negb (String.eqb (normalize (col_name c)) (normalize (col_name d))))
                 columns))
  <-> In n (names columns) /\ n <> normalize (col_name d).
Proof.
  rewrite names_filter. split.
  - intros (c & Hc & Hp & <-). split; [apply names_in; eauto |].
    now apply negb_true_iff, String.eqb_neq in Hp.
  - intros (Hin & Hne). apply names_in in Hin as (c & Hc & <-).
    exists c. split; [exact Hc |]. split; [| reflexivity].
    now apply negb_true_iff, String.eqb_neq.
Qed.

Lemma apply_drops_names (ds columns : list Column) (n : string) :
  In n (names (apply_operations normalize (List.map (mkOp DropColumn) ds) columns))
  <-> In n (names columns) /\ ~ In n (names ds).
Proof.
  unfold apply_operations. revert columns.
  induction ds as [| d ds IH]; intros columns; simpl.
  - tauto.
  - rewrite IH. unfold apply_operation. cbn [op_intent op_column].
    rewrite names_drop. split.
    + intros ((Hin & Hne) & Hds). split; [exact Hin |].
      intros [E | E]; [apply Hne; now symmetry | now apply Hds].
    + intros (Hin & Hn). split; [split; [exact Hin |] |].
      * intros E. apply Hn. left. now symmetry.
      * intros E. apply Hn. now right.
Qed.

Lemma apply_operations_app (ops1 ops2 : list StructuralOp) (columns : list Column) :
  apply_operations normalize (ops1 ++ ops2)%list columns
  = apply_operations normalize ops2 (apply_operations normalize ops1 columns).
Proof. unfold apply_operations. apply List.fold_left_app. Qed.

Lemma names_app (a b : list Column) (n : string) :
  In n (names (a ++ b)%list) <-> In n (names a) \/ In n (names b).
Proof. unfold normalized_names. rewrite List.map_app. apply List.in_app_iff. Qed.

(** C2: under [SyncAllColumns] the operations are all the additions,
    then all the drops; applied in that order to the existing columns
    they leave exactly the incoming column set (by normalised name); and
    the operation of a column whose name is a reserved word or contains
    a dash carries the quoted identifier. *)
Theorem sync_all_columns_converges (existing incoming : list Column) :
  let d := column_diff normalize existing incoming in
  let ops := (List.map (mkOp AddColumn) (added d) ++ List.map (mkOp DropColumn) (removed d))%list in
  reconcile normalize existing incoming SyncAllColumns = (d, Return ops)
  /\ incremental_run normalize existing incoming SyncAllColumns
     = (apply_operations normalize ops existing, None)
  /\ (forall n, In n (names (apply_operations normalize ops existing)) <-> In n (names incoming))
  /\ (forall op, In op ops ->
        is_reserved (col_name (op_column op)) = true
        \/ Py.contains (col_name (op_column op)) "-" = true ->
        emitted_identifier is_reserved quote op = quote (col_name (op_column op))).
Proof.
  intros d ops. split; [reflexivity |]. split; [reflexivity |]. split.
  - intros n. subst ops. rewrite apply_operations_app, apply_additions.
    rewrite apply_drops_names, names_app. subst d.
    rewrite added_names, removed_names.
    destruct (List.in_dec string_dec n (names existing)) as [He | He];
      destruct (List.in_dec string_dec n (names incoming)) as [Hi | Hi]; tauto.
  - intros op _ H. unfold emitted_identifier, requires_quoting.
    destruct H as [-> | H]; [reflexivity |].
    rewrite (dash_requires_quoting _ H). now rewrite orb_true_r.
Qed.

(** C1: under [Fail], when the diff is not empty no operation is
    returned, the error is a schema drift error whose message contains
    the out-of-sync phrase, and the stored columns stay as they were;
    when the diff is empty there is no operation and no error. *)
Theorem fail_policy_reports_drift (existing incoming : list Column) :
  let d := column_diff normalize existing incoming in
  (added d <> [] \/ removed d <> [] ->
   exists e,
     reconcile normalize existing incoming Fail = (d, Raise e)
     /\ exc_class e = SchemaDriftError
     /\ Py.contains (exc_str e) out_of_sync_phrase = true
     /\ incremental_run normalize existing incoming Fail = (existing, Some e))
  /\ (added d = [] /\ removed d = [] ->
      reconcile normalize existing incoming Fail = (d, Return [])
      /\ incremental_run normalize existing incoming Fail = (existing, None)).
Proof.
  intros d. split.
  - intros Hdrift.
    assert (Hempty : is_empty (added d) && is_empty (removed d) = false).
    { destruct Hdrift as [H | H].
      - destruct (added d); [contradiction | reflexivity].
      - destruct (removed d); [contradiction | apply andb_false_r]. }
    exists (drift_error d). unfold incremental_run, reconcile. fold d. cbn [snd].
    rewrite Hempty. split; [reflexivity |]. split; [reflexivity |]. split; [| reflexivity].
    unfold drift_error. cbn [exc_str]. apply contains_append.
  - intros [Ha Hr]. unfold incremental_run, reconcile. fold d. cbn [snd].
    rewrite Ha, Hr. split; reflexivity.
Qed.

End SchemaDiffProperties.

(** The scenarios of [test_on_schema_change.py]: the first run stores the
    columns of the model, the incremental run brings one more. *)

Example test__sync_all_columns :
  col_names (fst (incremental_run Py.lower base_columns incremental_columns SyncAllColumns))
  = ["id"; "name"; "updated_at"].
Proof. reflexivity. Qed.

Example test__append_new_columns :
  col_names (fst (incremental_run Py.lower base_columns incremental_columns AppendNewColumns))
  = ["id"; "name"; "updated_at"].
Proof. reflexivity. Qed.

Example test__ignore :
  incremental_run Py.lower base_columns incremental_columns Ignore = (base_columns, None).
Proof. reflexivity. Qed.

Example sync_removes_stale_column :
  snd (reconcile Py.lower incremental_columns base_columns SyncAllColumns)
  = Return [mkOp DropColumn (mkColumn "updated_at" "varchar" 3)]
  /\ col_names (fst (incremental_run Py.lower incremental_columns base_columns SyncAllColumns))
     = ["id"; "name"].
Proof. split; reflexivity. Qed.

Lemma fail_policy_reports_drift_witness :
  added (column_diff Py.lower base_columns incremental_columns) <> []
  /\ exists e,
       incremental_run Py.lower base_columns incremental_columns Fail = (base_columns, Some e)
       /\ Py.contains (exc_str e) out_of_sync_phrase = true.
Proof.
  assert (H : added (column_diff Py.lower base_columns incremental_columns) <> [])
    by (vm_compute; discriminate).
  split; [exact H |].
  destruct (proj1 (fail_policy_reports_drift Py.lower base_columns incremental_columns)
              (or_introl H)) as (e & _ & _ & Hphrase & Hrun).
  exists e. split; assumption.
Defined.

Lemma sync_all_columns_converges_witness :
  snd (reconcile Py.lower special_base_columns special_incremental_columns SyncAllColumns)
  = Return [mkOp AddColumn (mkColumn "field-with-dash" "varchar" 3)]
  /\ emitted_identifier example_is_reserved example_quote
       (mkOp AddColumn (mkColumn "field-with-dash" "varchar" 3))
     = example_quote "field-with-dash"
  /\ (forall n,
        In n (normalized_names Py.lower
                (fst (incremental_run Py.lower special_base_columns
                        special_incremental_columns SyncAllColumns)))
        <-> In n ["id"; "select"; "field-with-dash"]).
Proof.
  pose proof (sync_all_columns_converges Py.lower example_is_reserved example_quote
                special_base_columns special_incremental_columns) as (Hops & Hrun & Hset & Hq).
  split; [rewrite Hops; reflexivity |]. split.
  - apply Hq; [left; reflexivity | right; reflexivity].
  - intros n. rewrite Hrun. cbn [fst]. apply Hset.
Defined.

(* ===================================================================== *)
(** * Further properties of the adapter *)
(* ===================================================================== *)

(** ** More on strings *)

Lemma upper_char_idempotent (c : ascii) :
  Py.upper_char (Py.upper_char c) = Py.upper_char c.
Proof. destruct c as [[] [] [] [] [] [] [] []]; reflexivity. Qed.

Lemma upper_char_quote (c : ascii) :
  Ascii.eqb (Py.upper_char c) dquote = Ascii.eqb c dquote.
Proof. destruct c as [[] [] [] [] [] [] [] []]; reflexivity. Qed.

Lemma upper_idempotent (s : string) : Py.upper (Py.upper s) = Py.upper s.
Proof.
  induction s as [| c r IH]; [reflexivity |].
  simpl. now rewrite upper_char_idempotent, IH.
Qed.

Lemma startswith_quote_upper (s : string) :
  Py.startswith (Py.upper s) quote_character = Py.startswith s quote_character.
Proof.
  destruct s as [| c r]; [reflexivity |].
  change (Py.upper (String c r)) with (String (Py.upper_char c) (Py.upper r)).
  now rewrite !startswith_quote_cons, upper_char_quote.
Qed.

Lemma endswith_quote_upper (s : string) :
  Py.endswith (Py.upper s) quote_character = Py.endswith s quote_character.
Proof.
  induction s as [| c r IH]; [reflexivity |].
  change (Py.upper (String c r)) with (String (Py.upper_char c) (Py.upper r)).
  rewrite !endswith_quote_cons, upper_char_quote, IH.
  destruct r; reflexivity.
Qed.

Lemma is_quoted_upper (s : string) :
  _is_quoted (Some (Py.upper s)) = _is_quoted (Some s).
Proof. unfold _is_quoted. now rewrite startswith_quote_upper, endswith_quote_upper. Qed.

Lemma is_quoted_strip_quotes (s : string) : _is_quoted (Some (_strip_quotes s)) = false.
Proof.
  destruct (strip_quotes_decompose s) as (m & n & _ & Hs & _).
  unfold _is_quoted. now rewrite Hs.
Qed.

(** ** More on identifier normalisation *)

Lemma match_part_some (flag : bool) (s : string) :
  match_part flag (Some s)
  = Some (if _is_quoted (Some s) then _strip_quotes s
          else if flag then s else Py.upper s).
Proof.
  unfold match_part. destruct (_is_quoted (Some s)); [reflexivity |].
  destruct flag; reflexivity.
Qed.

(** X1: the result of [_make_match_kwargs] has an entry for a path part
    exactly when that part is not [None]; the only keys are [identifier],
    [schema] and [database]. *)
Theorem make_match_kwargs_drops_none_parts
    (quoting : Quoting) (database schema identifier : option string) :
  let kwargs := _make_match_kwargs quoting database schema identifier in
  (forall key flag part,
      In (key, flag, part) (path_parts quoting database schema identifier) ->
      (dict_get kwargs key = None <-> part = None))
  /\ (forall key value,
        In (key, value) kwargs -> key = "identifier" \/ key = "schema" \/ key = "database").
Proof.
  intros kwargs. split.
  - intros key flag part Hin. subst kwargs.
    rewrite (make_match_kwargs_part _ _ _ _ _ _ _ Hin).
    destruct part as [s |]; [rewrite match_part_some | reflexivity].
    split; discriminate.
  - intros key value. subst kwargs. rewrite make_match_kwargs_unfold.
    destruct (match_part (quoting_identifier quoting) identifier),
      (match_part (quoting_schema quoting) schema),
      (match_part (quoting_database quoting) database); simpl;
      intros H; repeat (destruct H as [H | H]; [inversion H; auto |]); contradiction.
Qed.

Lemma make_match_kwargs_drops_none_parts_witness :
  _make_match_kwargs (mkQuoting false false false) None (Some "sales") None
  = [("schema", "SALES")]
  /\ (dict_get (_make_match_kwargs (mkQuoting false false false) None (Some "sales") None)
        "database" = None <-> @None string = None).
Proof.
  split; [reflexivity |].
  apply (proj1 (make_match_kwargs_drops_none_parts (mkQuoting false false false)
                  None (Some "sales") None) "database" false None).
  right. right. left. reflexivity.
Defined.

(** X2: no value in the result of [_make_match_kwargs] is itself wrapped
    in quote characters: stripping leaves a quote at neither end, and
    upper-casing does not create one. *)
Theorem make_match_kwargs_values_are_unquoted
    (quoting : Quoting) (database schema identifier : option string)
    (key : string) (flag : bool) (part : option string) (value : string) :
  In (key, flag, part) (path_parts quoting database schema identifier) ->
  dict_get (_make_match_kwargs quoting database schema identifier) key = Some value ->
  _is_quoted (Some value) = false.
Proof.
  intros Hin. rewrite (make_match_kwargs_part _ _ _ _ _ _ _ Hin).
  destruct part as [s |]; [| discriminate].
  rewrite match_part_some.
  destruct (_is_quoted (Some s)) eqn:Hq.
  - intros [= <-]. apply is_quoted_strip_quotes.
  - destruct flag; intros [= <-]; [exact Hq |]. now rewrite is_quoted_upper.
Qed.

Lemma make_match_kwargs_values_are_unquoted_witness :
  dict_get (_make_match_kwargs (mkQuoting true false true) (Some "db") (Some quoted_my_col) None)
    "schema" = Some "My Col"
  /\ _is_quoted (Some "My Col") = false.
Proof.
  split; [reflexivity |].
  apply (make_match_kwargs_values_are_unquoted (mkQuoting true false true)
           (Some "db") (Some quoted_my_col) None "schema" false (Some quoted_my_col) "My Col");
    [right; left; reflexivity | reflexivity].
Defined.

Lemma match_part_twice (flag : bool) (part : option string) :
  match_part flag (match_part flag part)
  = match part with
    | Some s =>
        if _is_quoted (Some s) && negb flag then Some (Py.upper (_strip_quotes s))
        else match_part flag part
    | None => None
    end.
Proof.
  destruct part as [s |]; [| reflexivity].
  rewrite match_part_some.
  destruct (_is_quoted (Some s)) eqn:Hq.
  - rewrite match_part_some, is_quoted_strip_quotes. destruct flag; reflexivity.
  - destruct flag; simpl.
    + now rewrite match_part_some, Hq.
    + now rewrite match_part_some, is_quoted_upper, Hq, upper_idempotent.
Qed.

Lemma make_match_kwargs_again_unfold
    (quoting : Quoting) (database schema identifier : option string) :
  _make_match_kwargs quoting
    (dict_get (_make_match_kwargs quoting database schema identifier) "database")
    (dict_get (_make_match_kwargs quoting database schema identifier) "schema")
    (dict_get (_make_match_kwargs quoting database schema identifier) "identifier")
  = filter_null_values
      [("identifier",
        match_part (quoting_identifier quoting)
          (match_part (quoting_identifier quoting) identifier));
       ("schema",
        match_part (quoting_schema quoting) (match_part (quoting_schema quoting) schema));
       ("database",
        match_part (quoting_database quoting)
          (match_part (quoting_database quoting) database))].
Proof.
  pose proof (make_match_kwargs_part quoting database schema identifier) as Hk.
  rewrite (Hk "identifier" (quoting_identifier quoting) identifier) by (left; reflexivity).
  rewrite (Hk "schema" (quoting_schema quoting) schema) by (right; left; reflexivity).
  rewrite (Hk "database" (quoting_database quoting) database)
    by (right; right; left; reflexivity).
  apply make_match_kwargs_unfold.
Qed.

(** X3: normalising the result of [_make_match_kwargs] once more, under
    the same policy, changes nothing as long as no part is both quoted and
    under a non-quoting policy with a lower-case letter inside its quotes;
    such a part is stripped by the first pass and upper-cased by the
    second, so the two passes differ. *)
Theorem make_match_kwargs_twice
    (quoting : Quoting) (database schema identifier : option string) :
  let kwargs := _make_match_kwargs quoting database schema identifier in
  let again :=
    _make_match_kwargs quoting
      (dict_get kwargs "database") (dict_get kwargs "schema") (dict_get kwargs "identifier") in
  ((forall key flag s,
       In (key, flag, Some s) (path_parts quoting database schema identifier) ->
       _is_quoted (Some s) = true -> flag = false ->
       Py.upper (_strip_quotes s) = _strip_quotes s) ->
   again = kwargs)
  /\ (forall key flag s,
        In (key, flag, Some s) (path_parts quoting database schema identifier) ->
        _is_quoted (Some s) = true -> flag = false ->
        Py.upper (_strip_quotes s) <> _strip_quotes s ->
        dict_get again key = Some (Py.upper (_strip_quotes s))
        /\ dict_get kwargs key = Some (_strip_quotes s)
        /\ again <> kwargs).
Proof.
  intros kwargs again. subst again kwargs.
  rewrite make_match_kwargs_again_unfold. split.
  - intros Hclean. rewrite make_match_kwargs_unfold.
    assert (Hid : forall key flag part,
               In (key, flag, part) (path_parts quoting database schema identifier) ->
               match_part flag (match_part flag part) = match_part flag part).
    { intros key flag part Hin. rewrite match_part_twice.
      destruct part as [s |]; [| reflexivity].
      destruct (_is_quoted (Some s)) eqn:Hq; [| reflexivity].
      destruct flag; [reflexivity |]. simpl.
      rewrite (Hclean key false s Hin Hq eq_refl), match_part_some, Hq. reflexivity. }
    rewrite (Hid "identifier" (quoting_identifier quoting) identifier) by (left; reflexivity).
    rewrite (Hid "schema" (quoting_schema quoting) schema) by (right; left; reflexivity).
    rewrite (Hid "database" (quoting_database quoting) database)
      by (right; right; left; reflexivity).
    reflexivity.
  - intros key flag s Hin Hq Hflag Hne.
    pose proof (make_match_kwargs_part _ _ _ _ _ _ _ Hin) as Hk.
    rewrite match_part_some, Hq in Hk.
    assert (Ha : dict_get
                   (filter_null_values
                      [("identifier",
                        match_part (quoting_identifier quoting)
                          (match_part (quoting_identifier quoting) identifier));
                       ("schema",
                        match_part (quoting_schema quoting)
                          (match_part (quoting_schema quoting) schema));
                       ("database",
                        match_part (quoting_database quoting)
                          (match_part (quoting_database quoting) database))]) key
                 = Some (Py.upper (_strip_quotes s))).
    { pose proof (dict_get_three
                    (match_part (quoting_identifier quoting)
                       (match_part (quoting_identifier quoting) identifier))
                    (match_part (quoting_schema quoting)
                       (match_part (quoting_schema quoting) schema))
                    (match_part (quoting_database quoting)
                       (match_part (quoting_database quoting) database))) as (Hi & Hs & Hd).
      assert (Hgoal : match_part flag (match_part flag (Some s))
                      = Some (Py.upper (_strip_quotes s)))
        by (rewrite match_part_twice, Hq, Hflag; reflexivity).
      destruct Hin as [E | [E | [E | []]]]; inversion E; subst; congruence. }
    split; [exact Ha |]. split; [exact Hk |].
    intros E. rewrite E, Hk in Ha. injection Ha as Ha. congruence.
Qed.

Lemma make_match_kwargs_twice_witness :
  _make_match_kwargs (mkQuoting false false false) None None (Some quoted_orders)
  = [("identifier", "orders")]
  /\ _make_match_kwargs (mkQuoting false false false) None None (Some "orders")
     = [("identifier", "ORDERS")]
  /\ dict_get
       (_make_match_kwargs (mkQuoting false false false)
          (dict_get (_make_match_kwargs (mkQuoting false false false) None None
                       (Some quoted_orders)) "database")
          (dict_get (_make_match_kwargs (mkQuoting false false false) None None
                       (Some quoted_orders)) "schema")
          (dict_get (_make_match_kwargs (mkQuoting false false false) None None
                       (Some quoted_orders)) "identifier"))
       "identifier"
     = Some "ORDERS".
Proof.
  split; [reflexivity |]. split; [reflexivity |].
  apply (proj2 (make_match_kwargs_twice (mkQuoting false false false) None None
                  (Some quoted_orders)) "identifier" false quoted_orders);
    [left; reflexivity | reflexivity | reflexivity | discriminate].
Defined.

(** ** Schemas *)

Lemma startswith_self (x : string) : Py.startswith x x = true.
Proof. induction x as [| c x IH]; [reflexivity |]. simpl. now rewrite Ascii.eqb_refl. Qed.

Lemma contains_self (x : string) : Py.contains x x = true.
Proof. now rewrite contains_unfold, startswith_self. Qed.

Lemma startswith_app_l (x a b : string) :
  Py.startswith a x = true -> Py.startswith (a +:+ b) x = true.
Proof.
  revert a. induction x as [| c x IH]; intros a; [reflexivity |].
  destruct a as [| d a]; [discriminate |]. simpl.
  intros H. apply andb_true_iff in H as [-> H]. simpl. now apply IH.
Qed.

Lemma contains_cons (d : ascii) (r x : string) :
  Py.contains (String d r) x = Py.startswith (String d r) x || Py.contains r x.
Proof. reflexivity. Qed.

Lemma append_cons (d : ascii) (a b : string) : String d a +:+ b = String d (a +:+ b).
Proof. reflexivity. Qed.

Lemma contains_app_l (a b x : string) :
  Py.contains a x = true -> Py.contains (a +:+ b) x = true.
Proof.
  induction a as [| d a IH].
  - rewrite contains_unfold, orb_false_r. destruct x; [| discriminate].
    intros _. now rewrite contains_unfold.
  - rewrite contains_cons, append_cons, contains_cons, <- append_cons.
    intros H. apply orb_true_iff in H as [H | H].
    + now rewrite (startswith_app_l _ _ _ H).
    + rewrite (IH H). apply orb_true_r.
Qed.

Lemma contains_app_r (a b x : string) :
  Py.contains b x = true -> Py.contains (a +:+ b) x = true.
Proof.
  intros H. induction a as [| d a IH]; [exact H |].
  rewrite append_cons, contains_cons, IH. apply orb_true_r.
Qed.

Lemma mapM_result_total {A B : Type} (f : A -> result B) (g : A -> B) (l : list A) :
  (forall x, In x l -> f x = Return (g x)) -> mapM_result f l = Return (List.map g l).
Proof.
  induction l as [| a l IH]; intros H; [reflexivity |].
  simpl. rewrite (H a) by now left. simpl.
  rewrite IH by (intros x Hx; apply H; now right). reflexivity.
Qed.

(** X4: [list_schemas] lets no database error through as it came, the
    "not found" errors included: whatever its text, a database error comes
    out as a new runtime error whose message has the quoted database name
    and the text of the original error.  An error that is no database
    error is passed on unchanged. *)
Theorem list_schemas_wraps_database_errors
    (execute_macro : DatabaseMacroExecutor) (database : string) (exc : Exception) :
  execute_macro LIST_SCHEMAS_MACRO_NAME database = Raise exc ->
  (exc_class exc = DbtDatabaseError ->
   exists msg,
     list_schemas execute_macro database = Failed (NewDbtRuntimeError msg)
     /\ Py.contains msg (quote_character +:+ database +:+ quote_character) = true
     /\ Py.contains msg (exc_str exc) = true)
  /\ (exc_class exc <> DbtDatabaseError ->
      list_schemas execute_macro database = Failed (Propagated exc)).
Proof.
  intros H. unfold list_schemas, is_DbtDatabaseError. rewrite H. split.
  - intros ->. eexists. split; [reflexivity |]. split.
    + apply contains_app_r. rewrite <- !append_assoc.
      do 2 apply contains_app_l. apply contains_self.
    + do 5 apply contains_app_r. apply contains_self.
  - intros Hc. destruct (exc_class exc); try reflexivity. contradiction.
Qed.

Lemma list_schemas_wraps_database_errors_witness :
  exists msg,
    list_schemas (fun _ _ => Raise schema_not_found) "ANALYTICS"
    = Failed (NewDbtRuntimeError msg)
    /\ Py.contains msg (quote_character +:+ "ANALYTICS" +:+ quote_character) = true
    /\ Py.contains msg "002043 (02000)" = true.
Proof.
  destruct (proj1 (list_schemas_wraps_database_errors (fun _ _ => Raise schema_not_found)
                     "ANALYTICS" schema_not_found eq_refl) eq_refl) as (msg & Hrun & Hdb & _).
  exists msg. split; [exact Hrun |]. split; [exact Hdb |].
  vm_compute in Hrun. injection Hrun as <-. reflexivity.
Defined.

(** X5: on success [list_schemas] gives the cell of the [name] column of
    every row, in the order of the rows.  The column is looked up under
    that exact name; a table without it has nothing to give when it has no
    rows and fails with a [KeyError] when it has some. *)
Theorem list_schemas_names_in_row_order
    (execute_macro : DatabaseMacroExecutor) (database : string) (results : AgateTable) :
  execute_macro LIST_SCHEMAS_MACRO_NAME database = Return results ->
  (forall i,
      index_of (column_names results) "name" = Some i ->
      list_schemas execute_macro database
      = Done (List.map (fun row => nth i row VNone) (table_rows results)))
  /\ (index_of (column_names results) "name" = None ->
      (table_rows results = [] -> list_schemas execute_macro database = Done [])
      /\ (table_rows results <> [] ->
          exists e,
            list_schemas execute_macro database = Failed (Propagated e)
            /\ exc_class e = KeyError)).
Proof.
  intros H. unfold list_schemas. rewrite H. split.
  - intros i Hi.
    rewrite (mapM_result_total _ (fun row => nth i row VNone)); [reflexivity |].
    intros row _. unfold row_getitem. now rewrite Hi.
  - intros Hnone. split.
    + intros ->. reflexivity.
    + intros Hrows. destruct (table_rows results) as [| row rows]; [contradiction |].
      simpl. unfold row_getitem. rewrite Hnone. simpl. eexists. split; reflexivity.
Qed.

Lemma list_schemas_names_in_row_order_witness :
  list_schemas
    (fun _ _ => Return (mkTable ["created_on"; "name"; "kind"]
                          [[VStr "2024-01-01"; VStr "PUBLIC"; VNone];
                           [VStr "2024-02-01"; VStr "SALES"; VNone]]))
    "ANALYTICS"
  = Done [VStr "PUBLIC"; VStr "SALES"].
Proof.
  apply (proj1 (list_schemas_names_in_row_order
                  (fun _ _ => Return (mkTable ["created_on"; "name"; "kind"]
                                        [[VStr "2024-01-01"; VStr "PUBLIC"; VNone];
                                         [VStr "2024-02-01"; VStr "SALES"; VNone]]))
                  "ANALYTICS" _ eq_refl) 1%nat eq_refl).
Defined.

(** ** Warehouse hooks *)

Lemma py_eq_refl (v : PyVal) : py_eq v v = true.
Proof.
  destruct v as [| b | z | s]; simpl.
  - reflexivity.
  - destruct b; reflexivity.
  - apply Z.eqb_refl.
  - apply String.eqb_refl.
Qed.

Lemma py_eq_none (v : PyVal) : py_eq v VNone = true <-> v = VNone.
Proof. destruct v; simpl; split; congruence. Qed.

Ltac unfold_session :=
  unfold pre_model_hook, post_model_hook, _get_warehouse, _use_warehouse, execute,
    mbind, Session_bind, mret, Session_ret, session_fail, outcome_of_result.

Section WarehouseProperties.

Variable answer : string -> result AgateTable.
Variable default_warehouse : PyVal.
Variable config : list (string * PyVal).

Abbreviation warehouse := (config_get config "snowflake_warehouse" default_warehouse).
Abbreviation select_statement := "select current_warehouse() as warehouse".
Abbreviation use_statement := ("use warehouse " +:+ py_str warehouse).

Lemma pre_model_hook_run (log : list string) :
  pre_model_hook answer default_warehouse config log
  = if py_eq warehouse default_warehouse || py_eq warehouse VNone then (Done None, log)
    else match answer select_statement with
         | Raise e => (Failed (Propagated e), log ++ [select_statement])%list
         | Return table =>
             match table_rows table with
             | (cell :: _) :: _ =>
                 (match answer use_statement with
                  | Return _ => Done (Some (py_str cell))
                  | Raise e => Failed (Propagated e)
                  end,
                  log ++ [select_statement; use_statement])%list
             | _ =>
                 (Failed (NewDbtRuntimeError "Could not get current warehouse: no results"),
                  log ++ [select_statement])%list
             end
         end.
Proof.
  unfold_session.
  destruct (py_eq warehouse default_warehouse || py_eq warehouse VNone); [reflexivity |].
  destruct (answer select_statement) as [[names rows] | e]; [| reflexivity].
  destruct rows as [| [| cell cells] more]; cbn [table_rows]; try reflexivity.
  rewrite <- List.app_assoc. destruct (answer use_statement); reflexivity.
Qed.

Lemma py_eq_none_false (v : PyVal) : v <> VNone -> py_eq v VNone = false.
Proof.
  intros H. destruct (py_eq v VNone) eqn:E; [| reflexivity].
  apply py_eq_none in E. contradiction.
Qed.

(** X6: [pre_model_hook] runs no statement and returns [None] when the
    model sets no warehouse, sets [None], or sets the default one.
    Otherwise it first reads the current warehouse; when that fails or
    gives no row or an empty row, it stops there and never switches; when
    it gives a cell, the switch to the model's warehouse is the next and
    last statement, and the text of the cell is what the hook returns. *)
Theorem pre_model_hook_switches_only_when_needed (log : list string) :
  (py_eq warehouse default_warehouse = true \/ warehouse = VNone ->
   pre_model_hook answer default_warehouse config log = (Done None, log))
  /\ (py_eq warehouse default_warehouse = false -> warehouse <> VNone ->
      (forall e,
          answer select_statement = Raise e ->
          pre_model_hook answer default_warehouse config log
          = (Failed (Propagated e), log ++ [select_statement])%list)
      /\ (forall names rows,
            answer select_statement = Return (mkTable names rows) ->
            rows = [] \/ (exists more, rows = [] :: more) ->
            pre_model_hook answer default_warehouse config log
            = (Failed (NewDbtRuntimeError "Could not get current warehouse: no results"),
               log ++ [select_statement])%list)
      /\ (forall names cell cells more,
            answer select_statement = Return (mkTable names ((cell :: cells) :: more)) ->
            pre_model_hook answer default_warehouse config log
            = (match answer use_statement with
               | Return _ => Done (Some (py_str cell))
               | Raise e => Failed (Propagated e)
               end,
               log ++ [select_statement; use_statement])%list)).
Proof.
  rewrite pre_model_hook_run. split.
  - intros [H | H].
    + now rewrite H.
    + apply py_eq_none in H. now rewrite H, orb_true_r.
  - intros Hd Hn. rewrite Hd, (py_eq_none_false _ Hn). cbn [orb].
    split; [| split].
    + intros e ->. reflexivity.
    + intros names rows -> [-> | [more ->]]; reflexivity.
    + intros names cell cells more ->. reflexivity.
Qed.

(** X7: the two hooks of one model undo each other on the connection.
    When [pre_model_hook] ran nothing, [post_model_hook] given its result
    runs nothing; when it switched warehouses, [post_model_hook] runs one
    statement, which switches back to the warehouse that the connection
    named before the switch. *)
Theorem model_hooks_restore_the_warehouse
    (log log' : list string) (context : option string) :
  pre_model_hook answer default_warehouse config log = (Done context, log') ->
  (context = None /\ log' = log
   /\ post_model_hook answer config context log' = (Done tt, log))
  \/ (exists names cell cells more,
        answer select_statement = Return (mkTable names ((cell :: cells) :: more))
        /\ context = Some (py_str cell)
        /\ log' = (log ++ [select_statement; use_statement])%list
        /\ snd (post_model_hook answer config context log')
           = (log ++ [select_statement; use_statement; "use warehouse " +:+ py_str cell])%list).
Proof.
  rewrite pre_model_hook_run.
  destruct (py_eq warehouse default_warehouse || py_eq warehouse VNone).
  - intros [= <- <-]. left. repeat split.
  - destruct (answer select_statement) as [[names rows] | e] eqn:Ha; [| discriminate].
    destruct rows as [| [| cell cells] more]; cbn [table_rows]; try discriminate.
    destruct (answer use_statement) eqn:Hu; [| discriminate].
    intros [= <- <-]. right. exists names, cell, cells, more.
    split; [reflexivity |]. split; [reflexivity |]. split; [reflexivity |].
    unfold_session. cbn [py_str].
    destruct (answer ("use warehouse " +:+ py_str cell)); cbn [snd];
      rewrite <- List.app_assoc; reflexivity.
Qed.

End WarehouseProperties.

Lemma pre_model_hook_switches_only_when_needed_witness :
  pre_model_hook sample_answer (VStr "COMPUTE_WH") [("snowflake_warehouse", VStr "BIG_WH")] []
  = (Done (Some "COMPUTE_WH"),
     ["select current_warehouse() as warehouse"; "use warehouse BIG_WH"]).
Proof.
  exact (proj2 (proj2 (proj2 (pre_model_hook_switches_only_when_needed sample_answer
                                (VStr "COMPUTE_WH") [("snowflake_warehouse", VStr "BIG_WH")] [])
                         eq_refl ltac:(discriminate)))
           ["WAREHOUSE"] (VStr "COMPUTE_WH") [] [] eq_refl).
Defined.

Lemma model_hooks_restore_the_warehouse_witness :
  snd (post_model_hook sample_answer [("snowflake_warehouse", VStr "BIG_WH")]
         (Some "COMPUTE_WH")
         ["select current_warehouse() as warehouse"; "use warehouse BIG_WH"])
  = ["select current_warehouse() as warehouse"; "use warehouse BIG_WH";
     "use warehouse COMPUTE_WH"].
Proof.
  destruct (model_hooks_restore_the_warehouse sample_answer (VStr "COMPUTE_WH")
              [("snowflake_warehouse", VStr "BIG_WH")] []
              ["select current_warehouse() as warehouse"; "use warehouse BIG_WH"]
              (Some "COMPUTE_WH") eq_refl)
    as [[Hc _] | (names & cell & cells & more & _ & Hctx & _ & Hpost)]; [discriminate |].
  injection Hctx as Hcell. rewrite <- Hcell in Hpost. exact Hpost.
Defined.

(** ** Seeds and grants *)

(** X8: [quote_seed_column] quotes the column only when the setting is the
    boolean true; with false or [None] the column comes back as it is; any
    other value, a truthy one included, is a compilation error that names
    the type of the value. *)
Theorem quote_seed_column_quotes_only_on_true
    (quote : string -> string) (column : string) (quote_config : PyVal) :
  (quote_config = VBool true -> quote_seed_column quote column quote_config = Done (quote column))
  /\ (quote_config = VBool false \/ quote_config = VNone ->
      quote_seed_column quote column quote_config = Done column)
  /\ ((forall b, quote_config <> VBool b) -> quote_config <> VNone ->
      exists msg,
        quote_seed_column quote column quote_config = Failed (NewCompilationError msg)
        /\ Py.contains msg "invalid type" = true
        /\ Py.contains msg (py_type_repr quote_config) = true).
Proof.
  split; [| split].
  - intros ->. reflexivity.
  - intros [-> | ->]; reflexivity.
  - intros Hb Hn. destruct quote_config as [| b | z | s].
    + contradiction.
    + exfalso. exact (Hb b eq_refl).
    + eexists. split; [reflexivity |]. split; [| do 5 apply contains_app_r]; reflexivity.
    + eexists. split; [reflexivity |]. split; [| do 5 apply contains_app_r]; reflexivity.
Qed.

Lemma quote_seed_column_quotes_only_on_true_witness :
  quote_seed_column example_quote "select" (VBool true) = Done (example_quote "select")
  /\ exists msg,
       quote_seed_column example_quote "select" (VStr "true") = Failed (NewCompilationError msg)
       /\ Py.contains msg "<class 'str'>" = true.
Proof.
  pose proof (quote_seed_column_quotes_only_on_true example_quote "select" (VBool true))
    as (Htrue & _).
  split; [exact (Htrue eq_refl) |].
  destruct (proj2 (proj2 (quote_seed_column_quotes_only_on_true example_quote "select"
                            (VStr "true")))
              ltac:(discriminate) ltac:(discriminate)) as (msg & Hrun & _ & Htype).
  exists msg. split; [exact Hrun | exact Htype].
Defined.

Lemma grants_fold_lookup (rows : list GrantRow) (p : option string)
    (acc : gmap (option string) (list (option string))) :
  fold_left
    (fun grants_dict row =>
       if grant_is_kept row then
         match grants_dict !! privilege row with
         | Some grantees =>
             <[privilege row := (grantees ++ [grantee_name row])%list]> grants_dict
         | None => <[privilege row := [grantee_name row]]> grants_dict
         end
       else grants_dict)
    rows acc !! p
  = match acc !! p with
    | Some grantees => Some (grantees ++ grantees_with p rows)%list
    | None =>
        match grantees_with p rows with
        | [] => None
        | l => Some l
        end
    end.
Proof.
  revert acc. induction rows as [| row rows IH]; intros acc.
  - simpl. destruct (acc !! p); [now rewrite List.app_nil_r | reflexivity].
  - cbn [fold_left]. rewrite IH. unfold grantees_with. cbn [List.filter].
    destruct (grant_is_kept row) eqn:Hk; cbn [andb]; [| reflexivity].
    destruct (decide (privilege row = p)) as [<- | Hne].
    + rewrite bool_decide_eq_true_2 by reflexivity. cbn [List.map].
      destruct (acc !! privilege row) as [grantees |] eqn:Ha;
        rewrite lookup_insert_eq; [now rewrite <- List.app_assoc | reflexivity].
    + rewrite bool_decide_eq_false_2 by exact Hne.
      destruct (acc !! privilege row); rewrite lookup_insert_ne by exact Hne; reflexivity.
Qed.

Lemma grantees_with_ownership (rows : list GrantRow) :
  grantees_with (Some "OWNERSHIP") rows = [].
Proof.
  unfold grantees_with. induction rows as [| row rows IH]; [reflexivity |].
  cbn [List.filter]. unfold grant_is_kept at 1.
  destruct (decide (privilege row = Some "OWNERSHIP")) as [E | E].
  - rewrite (bool_decide_eq_true_2 _ E). cbn [negb andb]. exact IH.
  - rewrite (bool_decide_eq_false_2 (privilege row = Some "OWNERSHIP") E).
    rewrite andb_false_r. exact IH.
Qed.

(** X9: [standardize_grants_dict] groups the grantees by privilege.  Under
    each privilege stand the grantees of the rows with that privilege, in
    the order of the rows, leaving out the rows granted to a share or to a
    database role; a privilege with no such row is no key at all, and
    OWNERSHIP never is one. *)
Theorem standardize_grants_dict_groups_grantees (grants_table : list GrantRow) :
  (forall p,
      standardize_grants_dict grants_table !! p
      = match grantees_with p grants_table with
        | [] => None
        | l => Some l
        end)
  /\ standardize_grants_dict grants_table !! Some "OWNERSHIP" = None.
Proof.
  assert (H : forall p,
             standardize_grants_dict grants_table !! p
             = match grantees_with p grants_table with
               | [] => None
               | l => Some l
               end).
  { intros p. unfold standardize_grants_dict. rewrite grants_fold_lookup.
    now rewrite lookup_empty. }
  split; [exact H |]. now rewrite H, grantees_with_ownership.
Qed.

Example standardize_grants_dict_example :
  standardize_grants_dict
    [mkGrant (Some "ANALYST") (Some "ROLE") (Some "SELECT");
     mkGrant (Some "OWNER") (Some "ROLE") (Some "OWNERSHIP");
     mkGrant (Some "PARTNER") (Some "SHARE") (Some "SELECT");
     mkGrant (Some "LOADER") (Some "ROLE") (Some "INSERT");
     mkGrant (Some "REPORTER") (Some "ROLE") (Some "SELECT")]
  = {[ Some "SELECT" := [Some "ANALYST"; Some "REPORTER"]; Some "INSERT" := [Some "LOADER"] ]}.
Proof. vm_compute. reflexivity. Qed.

(** ** Python models *)

Lemma submit_python_job_packages_unfold (packages : list string) :
  submit_python_job_packages packages
  = if existsb (String.eqb snowpark)
         (List.map (fun package => split_first package "==") packages)
    then packages else (packages ++ [snowpark])%list.
Proof. reflexivity. Qed.

(** X10: the packages of a Python model always include the Snowpark
    package.  When a package of that name is listed, with or without a
    version after [==], the list is left as it is; otherwise the package is
    added at the end; and doing it again adds nothing. *)
Theorem submit_python_job_packages_include_snowpark (packages : list string) :
  let names := List.map (fun package => split_first package "==") in
  (In snowpark (names packages) -> submit_python_job_packages packages = packages)
  /\ (~ In snowpark (names packages) ->
      submit_python_job_packages packages = (packages ++ [snowpark])%list)
  /\ In snowpark (names (submit_python_job_packages packages))
  /\ submit_python_job_packages (submit_python_job_packages packages)
     = submit_python_job_packages packages.
Proof.
  intros names.
  assert (Hex : forall l, existsb (String.eqb snowpark) (names l) = true <-> In snowpark (names l)).
  { intros l. rewrite List.existsb_exists. split.
    - intros (x & Hx & E). apply String.eqb_eq in E. now subst.
    - intros H. exists snowpark. split; [exact H | apply String.eqb_refl]. }
  assert (Hadded : In snowpark (names (packages ++ [snowpark])%list)).
  { unfold names. rewrite List.map_app. apply List.in_app_iff. right. left. reflexivity. }
  rewrite !submit_python_job_packages_unfold. fold (names packages).
  destruct (existsb (String.eqb snowpark) (names packages)) eqn:E.
  - apply Hex in E. fold (names packages). rewrite (proj2 (Hex packages) E).
    repeat split; auto. intros H. contradiction.
  - assert (Hn : ~ In snowpark (names packages)).
    { intros H. apply Hex in H. congruence. }
    fold (names (packages ++ [snowpark])%list). rewrite (proj2 (Hex _) Hadded).
    repeat split; auto. intros H. contradiction.
Qed.

Lemma submit_python_job_packages_include_snowpark_witness :
  submit_python_job_packages ["numpy"; "snowflake-snowpark-python==1.11.1"]
  = ["numpy"; "snowflake-snowpark-python==1.11.1"]
  /\ submit_python_job_packages ["numpy"] = ["numpy"; "snowflake-snowpark-python"].
Proof.
  split.
  - apply (proj1 (submit_python_job_packages_include_snowpark
                    ["numpy"; "snowflake-snowpark-python==1.11.1"])).
    right. left. reflexivity.
  - apply (proj1 (proj2 (submit_python_job_packages_include_snowpark ["numpy"]))).
    intros [H | []]. discriminate.
Defined.

(** ** Run information *)

Lemma upper_empty (s : string) : Py.upper s = "" -> s = "".
Proof. destruct s; [reflexivity | discriminate]. Qed.

(** X11: the table format of the run information.  A configuration that is
    falsy or has no [_extra] gives none.  A truthy [table_format] in
    [_extra] is reported as declared, whatever the catalog.  Without one,
    the format is Iceberg exactly when a catalog is set and is not named as
    the default info schema catalog, and the info schema format otherwise. *)
Theorem run_info_table_format {AdapterType : Type} (ADAPTER_TYPE : AdapterType)
    (default_info_schema_name : string) (config : RunConfig) :
  let run_info := _get_adapter_specific_run_info ADAPTER_TYPE default_info_schema_name config in
  run_adapter_type run_info = ADAPTER_TYPE
  /\ (config = FalsyConfig \/ config = ConfigWithoutExtra ->
      run_table_format run_info = RunInfoNone)
  /\ (forall _extra,
        config = ConfigWithExtra _extra ->
        let declared := row_get _extra "table_format" in
        let catalog := row_get _extra "catalog" in
        (py_truthy declared = true -> run_table_format run_info = RunInfoDeclared declared)
        /\ (py_truthy declared = false ->
            (run_table_format run_info = RunInfoConstant ICEBERG_TABLE_FORMAT
             <-> py_truthy catalog = true /\ catalog <> VStr default_info_schema_name)
            /\ (run_table_format run_info = RunInfoConstant INFO_SCHEMA_TABLE_FORMAT
                <-> py_truthy catalog = false \/ catalog = VStr default_info_schema_name))).
Proof.
  intros run_info. subst run_info. split; [| split].
  - destruct config as [| | _extra]; try reflexivity. simpl.
    destruct (py_truthy (row_get _extra "table_format")); [reflexivity |].
    destruct (py_truthy (row_get _extra "catalog")); [| reflexivity].
    destruct (py_eq_str (row_get _extra "catalog") default_info_schema_name); reflexivity.
  - intros [-> | ->]; reflexivity.
  - intros _extra -> declared catalog. subst declared catalog. simpl. split.
    + intros ->. reflexivity.
    + intros ->.
      destruct (py_truthy (row_get _extra "catalog")) eqn:Ht; cbn [negb].
      * destruct (py_eq_str (row_get _extra "catalog") default_info_schema_name) eqn:Hc;
          cbn [run_table_format].
        -- apply py_eq_str_true in Hc. split; split; try discriminate; auto.
           intros [_ H]. contradiction.
        -- apply py_eq_str_false in Hc. split; split; try discriminate; auto.
           intros [H | H]; [discriminate | contradiction].
      * cbn [run_table_format]. split; split; try discriminate; auto.
        intros [H _]. discriminate.
Qed.

Lemma run_info_table_format_witness :
  run_table_format
    (_get_adapter_specific_run_info "snowflake" "INFO_SCHEMA"
       (ConfigWithExtra [("catalog", VStr "my_iceberg_catalog"); ("table_format", VStr "iceberg")]))
  = RunInfoDeclared (VStr "iceberg")
  /\ run_table_format
       (_get_adapter_specific_run_info "snowflake" "INFO_SCHEMA"
          (ConfigWithExtra [("catalog", VStr "INFO_SCHEMA")]))
     = RunInfoConstant INFO_SCHEMA_TABLE_FORMAT.
Proof.
  split.
  - apply (proj1 (proj2 (proj2 (run_info_table_format "snowflake" "INFO_SCHEMA" _))
                    [("catalog", VStr "my_iceberg_catalog"); ("table_format", VStr "iceberg")]
                    eq_refl)).
    reflexivity.
  - apply (proj2 (proj2 (proj2 (proj2 (run_info_table_format "snowflake" "INFO_SCHEMA" _))
                           [("catalog", VStr "INFO_SCHEMA")] eq_refl) eq_refl)).
    right. reflexivity.
Defined.

(** X12: the run information compares the catalog name with the name of
    the default info schema catalog as it is written, while the registry
    compares names in upper case.  So a model that names the default info
    schema catalog in another casing, and declares no table format, is
    reported with the Iceberg format although the registry resolves its
    catalog to the same integration as the default name. *)
Theorem run_info_catalog_name_is_case_sensitive {AdapterType : Type}
    (ADAPTER_TYPE : AdapterType) (default_info_schema_name : string)
    (_extra : list (string * PyVal)) (catalog : string) :
  py_truthy (row_get _extra "table_format") = false ->
  row_get _extra "catalog" = VStr catalog ->
  catalog <> default_info_schema_name ->
  Py.upper catalog = Py.upper default_info_schema_name ->
  run_table_format
    (_get_adapter_specific_run_info ADAPTER_TYPE default_info_schema_name
       (ConfigWithExtra _extra))
  = RunInfoConstant ICEBERG_TABLE_FORMAT
  /\ (forall st, get_catalog_integration catalog st
                 = get_catalog_integration default_info_schema_name st).
Proof.
  intros Hf Hc Hne Hup. split.
  - assert (Ht : Py.truthy catalog = true).
    { destruct catalog; [| reflexivity]. exfalso. apply Hne.
      symmetry. apply upper_empty. now rewrite <- Hup. }
    simpl. rewrite Hf, Hc. cbn [py_truthy py_eq_str]. rewrite Ht. cbn [negb].
    apply String.eqb_neq in Hne. now rewrite Hne.
  - intros st. unfold get_catalog_integration. now rewrite Hup.
Qed.

Lemma run_info_catalog_name_is_case_sensitive_witness :
  run_table_format
    (_get_adapter_specific_run_info "snowflake" "INFO_SCHEMA"
       (ConfigWithExtra [("catalog", VStr "info_schema")]))
  = RunInfoConstant ICEBERG_TABLE_FORMAT
  /\ (forall st, get_catalog_integration "info_schema" st
                 = get_catalog_integration "INFO_SCHEMA" st).
Proof.
  apply (run_info_catalog_name_is_case_sensitive "snowflake" "INFO_SCHEMA"
           [("catalog", VStr "info_schema")] "info_schema");
    [reflexivity | reflexivity | discriminate | reflexivity].
Defined.

(** ** The catalog of one relation *)

Lemma show_object_metadata_run (execute_macro : MacroExecutor) (relation : SnowflakeRelation) :
  _show_object_metadata execute_macro relation
  = match execute_macro SHOW_OBJECT_METADATA_MACRO_NAME relation with
    | Return results =>
        match table_rows results with
        | [] => Return None
        | _ :: _ => Return (Some results)
        end
    | Raise exc => if is_DbtDatabaseError exc then Return None else Raise exc
    end.
Proof.
  unfold _show_object_metadata.
  destruct (execute_macro SHOW_OBJECT_METADATA_MACRO_NAME relation) as [results | exc];
    [| reflexivity].
  destruct (table_rows results); reflexivity.
Qed.

Section SingleRelationCatalog.

Variable as_case_sensitive : SnowflakeRelation -> SnowflakeRelation.
Variable execute_macro : MacroExecutor.
Variable super_get_columns_in_relation : SnowflakeRelation -> result (list SnowflakeColumn).
Variable relation : SnowflakeRelation.

Abbreviation catalog_of_relation :=
  (get_catalog_for_single_relation as_case_sensitive execute_macro
     super_get_columns_in_relation relation).
Abbreviation shown :=
  (execute_macro SHOW_OBJECT_METADATA_MACRO_NAME (as_case_sensitive relation)).

(** X13: [get_catalog_for_single_relation] answers [None], with no error,
    when the metadata of the relation cannot be shown: on every database
    error of the metadata macro, whatever its text, and on a table with no
    rows.  The listing of the columns plays no part in it.  An error that
    is no database error is passed on. *)
Theorem single_relation_catalog_absent :
  (forall exc,
      execute_macro SHOW_OBJECT_METADATA_MACRO_NAME (as_case_sensitive relation) = Raise exc ->
      (exc_class exc = DbtDatabaseError ->
       get_catalog_for_single_relation as_case_sensitive execute_macro
         super_get_columns_in_relation relation = Return None)
      /\ (exc_class exc <> DbtDatabaseError ->
          get_catalog_for_single_relation as_case_sensitive execute_macro
            super_get_columns_in_relation relation = Raise exc))
  /\ (forall names,
        execute_macro SHOW_OBJECT_METADATA_MACRO_NAME (as_case_sensitive relation)
        = Return (mkTable names []) ->
        get_catalog_for_single_relation as_case_sensitive execute_macro
          super_get_columns_in_relation relation = Return None).
Proof.
  unfold get_catalog_for_single_relation. rewrite show_object_metadata_run. split.
  - intros exc ->. unfold is_DbtDatabaseError. split.
    + intros ->. reflexivity.
    + intros Hc. destruct (exc_class exc); try reflexivity. contradiction.
  - intros names ->. reflexivity.
Qed.

Lemma single_relation_catalog_run (names : list string) (cells : list PyVal)
    (more : list (list PyVal)) :
  shown = Return (mkTable names (cells :: more)) ->
  catalog_of_relation
  = match get_columns_in_relation super_get_columns_in_relation relation with
    | Raise e => Raise e
    | Return columns =>
        let row := row_dict names cells in
        let included := negb (py_eq_str (row_get row "kind") "VIEW") in
        Return
          (Some
             (mkCatalogTable
                (mkTableMetadata (get_catalog_for_single_relation_table_type row)
                   (row_get row "schema_name") (row_get row "name")
                   (row_get row "database_name") (row_get row "comment")
                   (row_get row "owner"))
                (dict_of_enumerate sf_column
                   (fun i c => mkColumnMetadata (sf_dtype c) (i + 1) (sf_column c)) columns)
                [("has_stats",
                  mkStatsItem "has_stats" "Has Stats?" (VBool true) false
                    "Indicates whether there are statistics for this table");
                 ("row_count",
                  mkStatsItem "row_count" "Row Count" (row_get row "rows") included
                    "Number of rows in the table as reported by Snowflake");
                 ("bytes",
                  mkStatsItem "bytes" "Approximate Size" (row_get row "bytes") included
                    "Size of the table as reported by Snowflake")]))
    end.
Proof.
  intros H. unfold get_catalog_for_single_relation.
  rewrite show_object_metadata_run, H.
  destruct (get_columns_in_relation super_get_columns_in_relation relation); reflexivity.
Qed.

(** X14: when the metadata macro gives rows, the catalog is made from the
    first row alone.  Its three statistics are [has_stats], [row_count]
    and [bytes], in that order, each filed under its own id; [has_stats]
    is never included, and the row count and the size are included exactly
    when the kind of the row is not VIEW. *)
Theorem single_relation_catalog_stats (names : list string) (cells : list PyVal)
    (more : list (list PyVal)) (columns : list SnowflakeColumn) :
  execute_macro SHOW_OBJECT_METADATA_MACRO_NAME (as_case_sensitive relation)
  = Return (mkTable names (cells :: more)) ->
  get_columns_in_relation super_get_columns_in_relation relation = Return columns ->
  exists catalog,
    get_catalog_for_single_relation as_case_sensitive execute_macro
      super_get_columns_in_relation relation = Return (Some catalog)
    /\ tm_name (ct_metadata catalog) = row_get (row_dict names cells) "name"
    /\ tm_type (ct_metadata catalog)
       = get_catalog_for_single_relation_table_type (row_dict names cells)
    /\ List.map fst (ct_stats catalog) = ["has_stats"; "row_count"; "bytes"]
    /\ (forall key item,
          In (key, item) (ct_stats catalog) ->
          stat_id item = key
          /\ stat_include item
             = if String.eqb key "has_stats" then false
               else negb (py_eq_str (row_get (row_dict names cells) "kind") "VIEW")).
Proof.
  intros Hshown Hcols. rewrite (single_relation_catalog_run names cells more Hshown), Hcols.
  eexists. split; [reflexivity |]. cbn [ct_metadata ct_stats tm_name tm_type].
  split; [reflexivity |]. split; [reflexivity |]. split; [reflexivity |].
  intros key item [H | [H | [H | []]]]; injection H as <- <-; split; reflexivity.
Qed.

End SingleRelationCatalog.

Section EnumerateDict.

Context {A V : Type}.
Variable key : A -> string.
Variable value : nat -> A -> V.

Abbreviation file_entry :=
  (fun (d : gmap string V) (ic : nat * A) => <[key ic.2 := value ic.1 ic.2]> d).

Lemma enumerate_fold_absent (h : nat -> nat) (l : list A) (acc : gmap string V) (n : string) :
  ~ In n (List.map key l) ->
  fold_left file_entry (imap (fun i c => (h i, c)) l) acc !! n = acc !! n.
Proof.
  revert h acc. induction l as [| x l IH]; intros h acc Hn; [reflexivity |].
  rewrite imap_cons. cbn [fold_left].
  rewrite (IH (fun i => h (S i))) by (intros H; apply Hn; now right).
  cbn [fst snd]. apply lookup_insert_ne. intros E. apply Hn. now left.
Qed.

Lemma enumerate_fold_present (h : nat -> nat) (l : list A) (acc : gmap string V)
    (i : nat) (c : A) :
  List.NoDup (List.map key l) ->
  l !! i = Some c ->
  fold_left file_entry (imap (fun i c => (h i, c)) l) acc !! key c = Some (value (h i) c).
Proof.
  revert h acc i. induction l as [| x l IH]; intros h acc i Hnd Hi; [discriminate |].
  cbn [List.map] in Hnd. apply List.NoDup_cons_iff in Hnd as [Hx Hnd].
  rewrite imap_cons. cbn [fold_left]. destruct i as [| i].
  - injection Hi as ->.
    rewrite (enumerate_fold_absent (fun i => h (S i))) by exact Hx.
    cbn [fst snd]. apply lookup_insert_eq.
  - exact (IH (fun i => h (S i)) _ i Hnd Hi).
Qed.

Lemma dict_of_enumerate_lookup (l : list A) :
  (forall n, ~ In n (List.map key l) -> dict_of_enumerate key value l !! n = None)
  /\ (List.NoDup (List.map key l) ->
      forall i c, l !! i = Some c -> dict_of_enumerate key value l !! key c = Some (value i c)).
Proof.
  unfold dict_of_enumerate. split.
  - intros n Hn. rewrite (enumerate_fold_absent (fun i => i)) by exact Hn.
    apply lookup_empty.
  - intros Hnd i c Hi. exact (enumerate_fold_present (fun i => i) l ∅ i c Hnd Hi).
Qed.

End EnumerateDict.

(** X15: the columns of the catalog of one relation are filed by name, and
    the index of a column is its place in the listing counted from 1; a name
    that the listing does not have is not in the catalog.  When the listing
    fails because the relation does not exist or is not authorized, the
    catalog still comes out, with no column. *)
Theorem single_relation_catalog_columns
    (as_case_sensitive : SnowflakeRelation -> SnowflakeRelation)
    (execute_macro : MacroExecutor)
    (super_get_columns_in_relation : SnowflakeRelation -> result (list SnowflakeColumn))
    (relation : SnowflakeRelation)
    (names : list string) (cells : list PyVal) (more : list (list PyVal)) :
  execute_macro SHOW_OBJECT_METADATA_MACRO_NAME (as_case_sensitive relation)
  = Return (mkTable names (cells :: more)) ->
  (forall columns,
      super_get_columns_in_relation relation = Return columns ->
      List.NoDup (List.map sf_column columns) ->
      exists catalog,
        get_catalog_for_single_relation as_case_sensitive execute_macro
          super_get_columns_in_relation relation = Return (Some catalog)
        /\ (forall i c,
              columns !! i = Some c ->
              ct_columns catalog !! sf_column c
              = Some (mkColumnMetadata (sf_dtype c) (i + 1) (sf_column c)))
        /\ (forall n, ~ In n (List.map sf_column columns) -> ct_columns catalog !! n = None))
  /\ (forall exc,
        super_get_columns_in_relation relation = Raise exc ->
        exc_class exc = DbtDatabaseError ->
        Py.contains (exc_str exc) "does not exist or not authorized" = true ->
        exists catalog,
          get_catalog_for_single_relation as_case_sensitive execute_macro
            super_get_columns_in_relation relation = Return (Some catalog)
          /\ ct_columns catalog = ∅).
Proof.
  intros Hshown.
  rewrite (single_relation_catalog_run _ _ _ _ names cells more Hshown). split.
  - intros columns Hcols Hnd. unfold get_columns_in_relation. rewrite Hcols.
    eexists. split; [reflexivity |]. cbn [ct_columns].
    destruct (dict_of_enumerate_lookup sf_column
                (fun i c => mkColumnMetadata (sf_dtype c) (i + 1) (sf_column c)) columns)
      as [Habsent Hpresent].
    split; [exact (Hpresent Hnd) | exact Habsent].
  - intros exc Hraise Hclass Hmsg. unfold get_columns_in_relation, is_DbtDatabaseError.
    rewrite Hraise, Hclass, Hmsg. eexists. split; reflexivity.
Qed.

Lemma single_relation_catalog_columns_witness :
  exists catalog,
    get_catalog_for_single_relation (fun r => r) (fun _ _ => Return orders_metadata)
      (fun _ => Return orders_columns) (schema_descriptor "DB" "SALES") = Return (Some catalog)
    /\ ct_columns catalog !! "NAME" = Some (mkColumnMetadata "TEXT" 2 "NAME").
Proof.
  destruct (proj1 (single_relation_catalog_columns (fun r => r)
                     (fun _ _ => Return orders_metadata) (fun _ => Return orders_columns)
                     (schema_descriptor "DB" "SALES")
                     ["name"; "kind"; "is_dynamic"; "rows"]
                     [VStr "ORDERS"; VStr "TABLE"; VStr "N"; VNum 42] [] eq_refl)
              orders_columns eq_refl)
    as (catalog & Hrun & Hcols & _).
  { repeat constructor; simpl; intuition discriminate. }
  exists catalog. split; [exact Hrun |].
  exact (Hcols 1%nat (mkSnowflakeColumn "NAME" "TEXT") eq_refl).
Defined.

Lemma single_relation_catalog_stats_witness :
  exists catalog,
    get_catalog_for_single_relation (fun r => r) (fun _ _ => Return orders_metadata)
      (fun _ => Return orders_columns) (schema_descriptor "DB" "SALES") = Return (Some catalog)
    /\ List.map (fun entry => (fst entry, stat_include (snd entry))) (ct_stats catalog)
       = [("has_stats", false); ("row_count", true); ("bytes", true)].
Proof.
  destruct (single_relation_catalog_stats (fun r => r) (fun _ _ => Return orders_metadata)
              (fun _ => Return orders_columns) (schema_descriptor "DB" "SALES")
              ["name"; "kind"; "is_dynamic"; "rows"]
              [VStr "ORDERS"; VStr "TABLE"; VStr "N"; VNum 42] [] orders_columns
              eq_refl eq_refl)
    as (catalog & Hrun & _).
  exists catalog. split; [exact Hrun |].
  vm_compute in Hrun. injection Hrun as <-. reflexivity.
Defined.

Lemma single_relation_catalog_absent_witness :
  get_catalog_for_single_relation (fun r => r) (fun _ _ => Raise relation_not_found)
    (fun _ => Return orders_columns) (schema_descriptor "DB" "SALES") = Return None.
Proof.
  exact (proj1 (proj1 (single_relation_catalog_absent (fun r => r)
                         (fun _ _ => Raise relation_not_found)
                         (fun _ => Return orders_columns) (schema_descriptor "DB" "SALES"))
                  relation_not_found eq_refl) eq_refl).
Defined.

(** ** Construction and the registry *)

Lemma init_run (st : Adapter) (r1 r2 : ref) (c1 c2 : CatalogIntegrationConfig) :
  objects st !! r1 = Some c1 ->
  objects st !! r2 = Some c2 ->
  exists f1 f2,
    f1 <> r1 /\ f1 <> r2 /\ f2 <> r1 /\ f2 <> r2
    /\ __init__ r1 r2 st
       = (Return tt,
          mkAdapter
            (<[f2 := upper_config c2]>
               (<[f2 := c2]> (<[f1 := upper_config c1]> (<[f1 := c1]> (objects st)))))
            (<[Py.upper (cfg_name c2) := integration_of (upper_config c2)]>
               (<[Py.upper (cfg_name c1) := integration_of (upper_config c1)]>
                  (catalog_integrations st)))
            (registry_reads st)).
Proof.
  intros H1 H2.
  pose proof (add_catalog_integration_run st r1 c1 H1) as Hrun1.
  set (f1 := fresh (dom (objects st))) in *.
  assert (Hf1 : f1 <> r1) by exact (fresh_ref_is_new st r1 c1 H1).
  assert (Hf2 : f1 <> r2) by exact (fresh_ref_is_new st r2 c2 H2).
  set (st1 := mkAdapter (<[f1 := upper_config c1]> (<[f1 := c1]> (objects st)))
                (<[Py.upper (cfg_name c1) := integration_of (upper_config c1)]>
                   (catalog_integrations st)) (registry_reads st)) in *.
  assert (H1' : objects st1 !! r1 = Some c1) by (cbn [st1 objects]; now rewrite !lookup_insert_ne).
  assert (H2' : objects st1 !! r2 = Some c2) by (cbn [st1 objects]; now rewrite !lookup_insert_ne).
  pose proof (add_catalog_integration_run st1 r2 c2 H2') as Hrun2.
  exists f1, (fresh (dom (objects st1))).
  split; [exact Hf1 |]. split; [exact Hf2 |].
  split; [exact (fresh_ref_is_new st1 r1 c1 H1') |].
  split; [exact (fresh_ref_is_new st1 r2 c2 H2') |].
  unfold __init__, mbind, M_bind. rewrite Hrun1, Hrun2. reflexivity.
Qed.

(** X16: construction registers the two default catalogs.  The two
    descriptors, which every adapter instance shares, are left as they
    were; afterwards each of the two, when their upper-case names differ,
    is found under its name in any casing. *)
Theorem init_registers_both_default_catalogs
    (st : Adapter) (DEFAULT_INFO_SCHEMA_CATALOG DEFAULT_BUILT_IN_CATALOG : ref)
    (info_schema built_in : CatalogIntegrationConfig) :
  objects st !! DEFAULT_INFO_SCHEMA_CATALOG = Some info_schema ->
  objects st !! DEFAULT_BUILT_IN_CATALOG = Some built_in ->
  Py.upper (cfg_name info_schema) <> Py.upper (cfg_name built_in) ->
  exists st',
    __init__ DEFAULT_INFO_SCHEMA_CATALOG DEFAULT_BUILT_IN_CATALOG st = (Return tt, st')
    /\ objects st' !! DEFAULT_INFO_SCHEMA_CATALOG = Some info_schema
    /\ objects st' !! DEFAULT_BUILT_IN_CATALOG = Some built_in
    /\ (forall m,
          Py.upper m = Py.upper (cfg_name info_schema) ->
          fst (get_catalog_integration m st') = Return (integration_of (upper_config info_schema)))
    /\ (forall m,
          Py.upper m = Py.upper (cfg_name built_in) ->
          fst (get_catalog_integration m st') = Return (integration_of (upper_config built_in))).
Proof.
  intros H1 H2 Hne.
  destruct (init_run st _ _ _ _ H1 H2) as (f1 & f2 & Hf11 & Hf12 & Hf21 & Hf22 & Hrun).
  eexists. split; [exact Hrun |]. cbn [objects].
  split; [now rewrite !lookup_insert_ne |]. split; [now rewrite !lookup_insert_ne |].
  split; intros m Hm; rewrite get_catalog_integration_run; cbn [fst catalog_integrations];
    rewrite Hm.
  - rewrite lookup_insert_ne by congruence. now rewrite lookup_insert_eq.
  - now rewrite lookup_insert_eq.
Qed.

Lemma init_registers_both_default_catalogs_witness :
  fst (get_catalog_integration "info_schema" (snd (__init__ 1%positive 2%positive module_state)))
  = Return (mkIntegration "INFO_SCHEMA" "INFO_SCHEMA" None)
  /\ objects (snd (__init__ 1%positive 2%positive module_state)) !! 1%positive
     = Some (mkConfig "info_schema" "INFO_SCHEMA" None).
Proof.
  destruct (init_registers_both_default_catalogs module_state 1%positive 2%positive
              (mkConfig "info_schema" "INFO_SCHEMA" None)
              (mkConfig "snowflake" "BUILT_IN" (Some "iceberg"))
              eq_refl eq_refl ltac:(discriminate))
    as (st' & Hrun & Hobj & _ & Hinfo & _).
  rewrite Hrun. cbn [snd]. split; [exact (Hinfo "info_schema" eq_refl) | exact Hobj].
Defined.

Section BuilderComposition.

Context {RelationConfig CatalogRelation : Type}.
Variable catalog_name : RelationConfig -> option string.
Variable build_relation : CatalogIntegration -> RelationConfig -> result CatalogRelation.

Lemma build_catalog_relation_run (model : RelationConfig) (st : Adapter) (catalog : string) :
  catalog_name model = Some catalog ->
  catalog <> "" ->
  fst (build_catalog_relation RelationConfig CatalogRelation catalog_name build_relation model st)
  = match catalog_integrations st !! Py.upper catalog with
    | Some integration => Some <$> build_relation integration model
    | None =>
        Raise (mkExc DbtCatalogIntegrationNotFoundError
                 ("Catalog integration not found: " +:+ Py.upper catalog))
    end.
Proof.
  intros H Hne.
  assert (Ht : Py.truthy catalog = true) by (destruct catalog; [contradiction | reflexivity]).
  unfold build_catalog_relation. rewrite H, Ht. unfold mbind, M_bind.
  rewrite get_catalog_integration_run.
  destruct (catalog_integrations st !! Py.upper catalog) as [integration |]; [| reflexivity].
  unfold lift_result. destruct (build_relation integration model); reflexivity.
Qed.

(** X17: once a descriptor is registered, a model that declares its name,
    in any casing, gets the relation that the integration made from that
    descriptor builds from the model; the builder never fails with
    "not found" for a registered name. *)
Theorem registered_catalog_builds_the_relation
    (st : Adapter) (catalog_integration : ref) (cfg : CatalogIntegrationConfig)
    (model : RelationConfig) (catalog : string) :
  objects st !! catalog_integration = Some cfg ->
  catalog_name model = Some catalog ->
  catalog <> "" ->
  Py.upper catalog = Py.upper (cfg_name cfg) ->
  fst (build_catalog_relation RelationConfig CatalogRelation catalog_name build_relation model
         (snd (add_catalog_integration catalog_integration st)))
  = (Some <$> build_relation (integration_of (upper_config cfg)) model).
Proof.
  intros Hobj Hname Hne Hup.
  rewrite (build_catalog_relation_run model _ catalog Hname Hne).
  rewrite (add_catalog_integration_run st catalog_integration cfg Hobj).
  cbn [snd catalog_integrations]. now rewrite Hup, lookup_insert_eq.
Qed.

End BuilderComposition.

Lemma registered_catalog_builds_the_relation_witness :
  fst (build_catalog_relation (option string) string id (fun ci _ => Return (ci_name ci))
         (Some "My_Catalog") (snd (add_catalog_integration 1%positive caller_state)))
  = Return (Some "MY_CATALOG").
Proof.
  exact (registered_catalog_builds_the_relation id (fun ci _ => Return (ci_name ci))
           caller_state 1%positive my_catalog (Some "My_Catalog") "My_Catalog"
           eq_refl eq_refl ltac:(discriminate) eq_refl).
Defined.

(** ** The rows of a listing *)

Lemma mapM_result_Forall2 {A B : Type} (f : A -> result B) (P : A -> B -> Prop) (l : list A) :
  (forall x, In x l -> exists b, f x = Return b /\ P x b) ->
  exists bs, mapM_result f l = Return bs /\ Forall2 P l bs.
Proof.
  induction l as [| a l IH]; intros H.
  - exists []. split; [reflexivity | constructor].
  - destruct (H a (or_introl eq_refl)) as (b & Hb & Pb).
    destruct IH as (bs & Hbs & Pbs); [intros x Hx; apply H; now right |].
    exists (b :: bs). split; [| now constructor].
    cbn [mapM_result]. rewrite Hb. cbn [mbind result_bind bind_result]. rewrite Hbs.
    reflexivity.
Qed.

Lemma mapM_result_raises {A B : Type} (f : A -> result B) (l : list A) (x : A) (e : Exception) :
  In x l -> f x = Raise e -> exists e', mapM_result f l = Raise e'.
Proof.
  induction l as [| a l IH]; intros Hin Hx; [contradiction |].
  cbn [mapM_result]. destruct (f a) as [b |e0] eqn:Ha; [| eexists; reflexivity].
  cbn [mbind result_bind bind_result]. destruct Hin as [-> | Hin]; [congruence |].
  destruct (IH Hin Hx) as [e' ->]. eexists. reflexivity.
Qed.

Lemma mapM_result_inv {A B : Type} (f : A -> result B) (l : list A) (bs : list B) :
  mapM_result f l = Return bs -> Forall2 (fun x b => f x = Return b) l bs.
Proof.
  revert bs. induction l as [| a l IH]; intros bs H.
  - injection H as <-. constructor.
  - cbn [mapM_result] in H. destruct (f a) as [b | e] eqn:Ha; [| discriminate].
    cbn [mbind result_bind bind_result] in H.
    destruct (mapM_result f l) as [bs' | e] eqn:Hl; [| discriminate].
    injection H as <-. constructor; [exact Ha | now apply IH].
Qed.

Lemma parse_list_relations_result_created (create : RelationCreate)
    (database schema identifier kind is_dynamic is_iceberg : PyVal) (rel : SnowflakeRelation) :
  _parse_list_relations_result create
    [database; schema; identifier; kind; is_dynamic; is_iceberg] = Return rel ->
  exists t,
    create database schema identifier t
      (if py_in_strs is_iceberg ["Y"; "YES"]
       then ICEBERG_TABLE_FORMAT else INFO_SCHEMA_TABLE_FORMAT)
      (mkQuoting true true true) = Return rel.
Proof.
  unfold _parse_list_relations_result.
  destruct (resolve_relation_type kind) as [t | e]; [| discriminate].
  cbn [mbind result_bind bind_result]. eauto.
Qed.

Lemma parse_list_relations_result_string (create : RelationCreate)
    (database schema identifier is_dynamic is_iceberg : PyVal) (s : string) :
  exists t,
    _parse_list_relations_result create
      [database; schema; identifier; VStr s; is_dynamic; is_iceberg]
    = create database schema identifier t
        (if py_in_strs is_iceberg ["Y"; "YES"]
         then ICEBERG_TABLE_FORMAT else INFO_SCHEMA_TABLE_FORMAT)
        (mkQuoting true true true).
Proof.
  destruct (resolve_relation_type_total s) as [t Ht].
  eexists. exact (parse_list_relations_result_type create _ _ _ _ _ _ t Ht).
Qed.

Lemma parse_list_relations_result_no_string (create : RelationCreate)
    (database schema identifier kind is_dynamic is_iceberg : PyVal) :
  (forall s, kind <> VStr s) ->
  exists e,
    _parse_list_relations_result create
      [database; schema; identifier; kind; is_dynamic; is_iceberg] = Raise e
    /\ exc_class e = AttributeError.
Proof.
  intros H. destruct kind as [| b | z | s]; try (eexists; split; reflexivity).
  exfalso. exact (H s eq_refl).
Qed.

Section ListingRows.

Variable create : RelationCreate.
Variable execute_macro : MacroExecutor.
Variable schema_relation : SnowflakeRelation.
Variable schema_objects : AgateTable.
Variables i_database i_schema i_name i_kind i_dynamic i_iceberg : nat.

Abbreviation lowered := (List.map Py.lower (column_names schema_objects)).

Hypothesis fetched :
  execute_macro LIST_RELATIONS_MACRO_NAME schema_relation = Return schema_objects.
Hypothesis has_database : index_of lowered "database_name" = Some i_database.
Hypothesis has_schema : index_of lowered "schema_name" = Some i_schema.
Hypothesis has_name : index_of lowered "name" = Some i_name.
Hypothesis has_kind : index_of lowered "kind" = Some i_kind.
Hypothesis has_dynamic : index_of lowered "is_dynamic" = Some i_dynamic.
Hypothesis has_iceberg : index_of lowered "is_iceberg" = Some i_iceberg.

Abbreviation cells_of :=
  (fun row : list PyVal =>
     [nth i_database row VNone; nth i_schema row VNone; nth i_name row VNone;
      nth i_kind row VNone; nth i_dynamic row VNone; nth i_iceberg row VNone]).

Lemma list_relations_run :
  list_relations_without_caching create execute_macro schema_relation
  = mapM_result (_parse_list_relations_result create)
      (List.map cells_of (table_rows schema_objects)).
Proof.
  unfold list_relations_without_caching. rewrite fetched.
  unfold table_select, table_rename. cbn [column_names table_rows mapM_result].
  rewrite has_database, has_schema, has_name, has_kind, has_dynamic, has_iceberg.
  reflexivity.
Qed.

(** X18: when the fetched table has the six columns, under names of any
    casing, a listing that returns has one relation for each row, in the
    order of the rows, and each is what the constructor of the relation
    gives for the database, schema and name cells of its row, some kind, the
    Iceberg format exactly when the Iceberg flag is Y or YES, and a policy
    that quotes every part.  The listing returns when every row has a
    string in its kind column and the constructor accepts every row; a
    single row whose kind is no string, or that the constructor rejects,
    fails the whole listing. *)
Theorem list_relations_follows_the_rows :
  (forall relations,
      list_relations_without_caching create execute_macro schema_relation = Return relations ->
      Forall2
        (fun row rel =>
           exists t,
             create (nth i_database row VNone) (nth i_schema row VNone) (nth i_name row VNone) t
               (if py_in_strs (nth i_iceberg row VNone) ["Y"; "YES"]
                then ICEBERG_TABLE_FORMAT else INFO_SCHEMA_TABLE_FORMAT)
               (mkQuoting true true true) = Return rel)
        (table_rows schema_objects) relations)
  /\ ((forall row, In row (table_rows schema_objects) -> exists s, nth i_kind row VNone = VStr s) ->
      (forall row t,
          In row (table_rows schema_objects) ->
          exists rel,
            create (nth i_database row VNone) (nth i_schema row VNone) (nth i_name row VNone) t
              (if py_in_strs (nth i_iceberg row VNone) ["Y"; "YES"]
               then ICEBERG_TABLE_FORMAT else INFO_SCHEMA_TABLE_FORMAT)
              (mkQuoting true true true) = Return rel) ->
      exists relations,
        list_relations_without_caching create execute_macro schema_relation = Return relations)
  /\ (forall row,
        In row (table_rows schema_objects) ->
        (forall s, nth i_kind row VNone <> VStr s)
        \/ (forall t,
              exists e,
                create (nth i_database row VNone) (nth i_schema row VNone)
                  (nth i_name row VNone) t
                  (if py_in_strs (nth i_iceberg row VNone) ["Y"; "YES"]
                   then ICEBERG_TABLE_FORMAT else INFO_SCHEMA_TABLE_FORMAT)
                  (mkQuoting true true true) = Raise e) ->
        exists e, list_relations_without_caching create execute_macro schema_relation = Raise e).
Proof.
  rewrite list_relations_run. split; [| split].
  - intros relations Hrun. apply mapM_result_inv in Hrun.
    revert relations Hrun.
    induction (table_rows schema_objects) as [| row rows IH]; intros relations Hall.
    + inversion Hall. constructor.
    + cbn [List.map] in Hall. inversion Hall as [| ? rel ? rels Hrel Hrels]; subst.
      constructor; [| now apply IH].
      exact (parse_list_relations_result_created create _ _ _ _ _ _ rel Hrel).
  - intros Hkinds Hcreate.
    destruct (mapM_result_Forall2 (_parse_list_relations_result create)
                (fun _ _ => True) (List.map cells_of (table_rows schema_objects)))
      as (relations & Hrun & _); [| eauto].
    intros cells Hin. apply List.in_map_iff in Hin as (row & <- & Hrow).
    destruct (Hkinds row Hrow) as [s Hs]. rewrite Hs.
    destruct (parse_list_relations_result_string create (nth i_database row VNone)
                (nth i_schema row VNone) (nth i_name row VNone) (nth i_dynamic row VNone)
                (nth i_iceberg row VNone) s) as [t Ht].
    destruct (Hcreate row t Hrow) as [rel Hrel].
    exists rel. split; [| exact I]. now rewrite Ht.
  - intros row Hrow Hbad.
    assert (Hraise : exists e, _parse_list_relations_result create (cells_of row) = Raise e).
    { destruct Hbad as [Hkind | Hcreate].
      - destruct (parse_list_relations_result_no_string create (nth i_database row VNone)
                    (nth i_schema row VNone) (nth i_name row VNone) (nth i_kind row VNone)
                    (nth i_dynamic row VNone) (nth i_iceberg row VNone) Hkind) as (e & He & _).
        eauto.
      - destruct (resolve_relation_type (nth i_kind row VNone)) as [t | e] eqn:Hres.
        + rewrite (parse_list_relations_result_type create _ _ _ _ _ _ t Hres).
          apply Hcreate.
        + exists e. unfold _parse_list_relations_result. now rewrite Hres. }
    destruct Hraise as [e He].
    eapply mapM_result_raises; [| exact He].
    apply List.in_map_iff. exists row. split; [reflexivity | exact Hrow].
Qed.

End ListingRows.

Lemma list_relations_follows_the_rows_witness :
  (exists relations,
      list_relations_without_caching plain_create (fun _ _ => Return listed_objects)
        (schema_descriptor "DB" "SALES") = Return relations)
  /\ (exists e,
        list_relations_without_caching checked_create (fun _ _ => Return listed_numeric_name)
          (schema_descriptor "DB" "SALES") = Raise e).
Proof.
  split.
  - apply (proj1 (proj2 (list_relations_follows_the_rows plain_create
                           (fun _ _ => Return listed_objects)
                           (schema_descriptor "DB" "SALES") listed_objects 2 3 0 1 4 5
                           eq_refl eq_refl eq_refl eq_refl eq_refl eq_refl eq_refl))).
    + intros row [<- | [<- | []]]; eexists; reflexivity.
    + intros row t _. eexists. reflexivity.
  - apply (proj2 (proj2 (list_relations_follows_the_rows checked_create
                           (fun _ _ => Return listed_numeric_name)
                           (schema_descriptor "DB" "SALES") listed_numeric_name 2 3 0 1 4 5
                           eq_refl eq_refl eq_refl eq_refl eq_refl eq_refl eq_refl))
             [VNum 2024; VStr "TABLE"; VStr "DB"; VStr "SALES"; VStr "N"; VStr "N"]).
    + left. reflexivity.
    + right. intros t. eexists. reflexivity.
Defined.

(** ** Python models: the statements of a job *)

Lemma contains_prefix3 (p x q rest : string) :
  Py.contains (p +:+ x +:+ q +:+ rest) (p +:+ x +:+ q) = true.
Proof.
  replace (p +:+ x +:+ q +:+ rest) with ((p +:+ x +:+ q) +:+ rest)
    by (now rewrite !append_assoc).
  apply contains_append.
Qed.

Section PythonJobProperties.

Context {Response : Type}.
Variable run : string -> result Response.
Variable DEFAULT_PYTHON_VERSION_FOR_PYTHON_MODELS : string.
Variable SEND_ANONYMOUS_USAGE_STATS : bool.
Variable parsed_model : ParsedModel.
Variable compiled_code : string.

Abbreviation job_statement :=
  (job_python_stored_procedure DEFAULT_PYTHON_VERSION_FOR_PYTHON_MODELS
     SEND_ANONYMOUS_USAGE_STATS parsed_model compiled_code).
Abbreviation job_drop :=
  ("drop procedure if exists "
   +:+ (pm_database parsed_model +:+ "." +:+ pm_schema parsed_model +:+ "."
        +:+ pm_alias parsed_model +:+ "__dbt_sp")
   +:+ "()").
Abbreviation job :=
  (submit_python_job Response run DEFAULT_PYTHON_VERSION_FOR_PYTHON_MODELS
     SEND_ANONYMOUS_USAGE_STATS parsed_model compiled_code).

Lemma submit_python_job_run (log : list string) :
  job log
  = match run job_statement with
    | Raise e => (Failed (Propagated e), log ++ [job_statement])%list
    | Return response =>
        if job_use_anonymous_sproc parsed_model then (Done response, log ++ [job_statement])%list
        else (match run job_drop with
              | Return _ => Done response
              | Raise e => Failed (Propagated e)
              end,
              log ++ [job_statement; job_drop])%list
    end.
Proof.
  unfold submit_python_job, execute_response, mbind, Session_bind, mret, Session_ret,
    outcome_of_result, job_proc_name.
  destruct (run job_statement) as [response | e]; [| reflexivity].
  destruct (job_use_anonymous_sproc parsed_model); cbn [negb]; [reflexivity |].
  rewrite <- List.app_assoc. destruct (run _); reflexivity.
Qed.

(** X19: the statements of [submit_python_job].  With an anonymous
    procedure (the default) the job is one statement.  With a named
    procedure the statement that creates and calls it is followed by the
    drop of that procedure, but only when the first statement succeeded:
    when it raises, the error comes out and no drop is run.  In both forms
    the statement carries the PACKAGES clause with the packages of the
    model and the default package. *)
Theorem submit_python_job_statements (log : list string) :
  (pc_use_anonymous_sproc (pm_config parsed_model) <> Some false ->
   job log = (outcome_of_result (run job_statement), log ++ [job_statement])%list)
  /\ (pc_use_anonymous_sproc (pm_config parsed_model) = Some false ->
      (forall e,
          run job_statement = Raise e ->
          job log = (Failed (Propagated e), log ++ [job_statement])%list)
      /\ (forall response,
            run job_statement = Return response ->
            job log
            = (match run job_drop with
               | Return _ => Done response
               | Raise e => Failed (Propagated e)
               end,
               log ++ [job_statement; job_drop])%list))
  /\ Py.contains job_statement
       ("PACKAGES = ('"
        +:+ String.concat "', '"
              (submit_python_job_packages (default [] (pc_packages (pm_config parsed_model))))
        +:+ "')") = true.
Proof.
  split; [| split].
  - intros Hanon. rewrite submit_python_job_run.
    assert (Ha : job_use_anonymous_sproc parsed_model = true).
    { unfold job_use_anonymous_sproc.
      destruct (pc_use_anonymous_sproc (pm_config parsed_model)) as [[] |]; try reflexivity.
      contradiction. }
    rewrite Ha. destruct (run job_statement); reflexivity.
  - intros Hnamed.
    assert (Ha : job_use_anonymous_sproc parsed_model = false)
      by (unfold job_use_anonymous_sproc; now rewrite Hnamed).
    split.
    + intros e He. rewrite submit_python_job_run, He. reflexivity.
    + intros response Hr. rewrite submit_python_job_run, Hr, Ha. reflexivity.
  - unfold job_python_stored_procedure.
    assert (Hcommon : Py.contains
                        (job_common_procedure_code DEFAULT_PYTHON_VERSION_FOR_PYTHON_MODELS
                           SEND_ANONYMOUS_USAGE_STATS parsed_model compiled_code)
                        ("PACKAGES = ('"
                         +:+ String.concat "', '"
                               (submit_python_job_packages
                                  (default [] (pc_packages (pm_config parsed_model))))
                         +:+ "')") = true).
    { unfold job_common_procedure_code. cbv zeta.
      do 9 apply contains_app_r. apply contains_prefix3. }
    destruct (job_use_anonymous_sproc parsed_model); cbv zeta;
      do 5 apply contains_app_r; apply contains_app_l; exact Hcommon.
Qed.

End PythonJobProperties.

Lemma submit_python_job_statements_witness :
  submit_python_job unit (fun _ => Raise schema_not_found) "3.9" false
    (mkParsedModel "SALES" "DB" "forecast"
       (mkPythonModelConfig None None None None None (Some false)))
    "def main(session): return 1" []
  = (Failed (Propagated schema_not_found),
     [job_python_stored_procedure "3.9" false
        (mkParsedModel "SALES" "DB" "forecast"
           (mkPythonModelConfig None None None None None (Some false)))
        "def main(session): return 1"]).
Proof.
  exact (proj1 (proj1 (proj2 (submit_python_job_statements (fun _ => Raise schema_not_found)
                                "3.9" false
                                (mkParsedModel "SALES" "DB" "forecast"
                                   (mkPythonModelConfig None None None None None (Some false)))
                                "def main(session): return 1" [])) eq_refl)
           schema_not_found eq_refl).
Defined.

Example job_python_stored_procedure_example :
  Py.contains
    (job_python_stored_procedure "3.9" true
       (mkParsedModel "SALES" "DB" "forecast"
          (mkPythonModelConfig None (Some ["numpy"]) None None None None))
       "def main(session): return 1")
    ("WITH forecast__dbt_sp AS PROCEDURE ()" +:+ newline +:+ newline
     +:+ "RETURNS STRING" +:+ newline +:+ "LANGUAGE PYTHON" +:+ newline
     +:+ "RUNTIME_VERSION = '3.9'" +:+ newline
     +:+ "PACKAGES = ('numpy', 'snowflake-snowpark-python')" +:+ newline) = true.
Proof. vm_compute. reflexivity. Qed.
